(** * ThesisWeb: the code sandbox client (App.jsx) and the execution relay (server.js)

    A shallow embedding of the two programs of the repository and the
    properties of their specification.

    - [JS]    : the string primitives of the JavaScript runtime both programs use.
    - [App]   : devratedraft/src/App.jsx, the React component: readiness polling,
                editor and terminal initialisation, the run handler and the
                simulated output renderer.
    - [Relay] : devratebe/server.js, the POST /api/execute handler.

    A JavaScript string is modelled by its sequence of code units, written as a
    [string]; every code unit of the model is below 256. *)

From Stdlib Require Import String Ascii List Bool Arith PeanoNat Lia.
From Stdlib Require Import ZArith DecimalString.
From Stdlib Require QArith.
Import ListNotations.
Open Scope string_scope.

(* ===================================================================== *)
(** ** JavaScript string primitives *)
(* ===================================================================== *)

Module JS.

(** Code units that cannot be typed inside a literal. *)
Definition LF : ascii := "010"%char.
Definition CR : ascii := "013"%char.
Definition ESC : ascii := "027"%char.
Definition DQUOTE : ascii := "034"%char.

Definition chr (c : ascii) : string := String c EmptyString.

(** WhiteSpace and LineTerminator of ECMAScript on one-unit characters:
    TAB, LF, VT, FF, CR, SP and NBSP. [String.prototype.trim] and the
    regular expression class [\s] use the same set. *)
Definition is_whitespace (c : ascii) : bool :=
  match nat_of_ascii c with
  | 9 | 10 | 11 | 12 | 13 | 32 | 160 => true
  | _ => false
  end.

Fixpoint trimStart (s : string) : string :=
  match s with
  | EmptyString => EmptyString
  | String c s' => if is_whitespace c then trimStart s' else s
  end.

Fixpoint trimEnd (s : string) : string :=
  match s with
  | EmptyString => EmptyString
  | String c s' =>
      match trimEnd s' with
      | EmptyString => if is_whitespace c then EmptyString else chr c
      | t => String c t
      end
  end.

(** [s.trim()] *)
Definition trim (s : string) : string := trimEnd (trimStart s).

(** [s.startsWith(p)] *)
Definition startsWith (p s : string) : bool := prefix p s.

(** [s.endsWith(p)] *)
Definition endsWith (p s : string) : bool :=
  Nat.leb (String.length p) (String.length s) &&
  String.eqb (String.substring (String.length s - String.length p) (String.length p) s) p.

(** [s.substring(i, j)]: the arguments are swapped when [i > j], and
    clamped to the length of [s]. *)
Definition substring (i j : nat) (s : string) : string :=
  let lo := Nat.min i j in
  let hi := Nat.max i j in
  String.substring lo (hi - lo) s.

(** [s.split(sep)] for a one-unit separator: never the empty array. *)
Fixpoint split (sep : ascii) (s : string) : list string :=
  match s with
  | EmptyString => [EmptyString]
  | String c s' =>
      if (c =? sep)%char then EmptyString :: split sep s'
      else match split sep s' with
           | [] => [chr c]
           | w :: ws => String c w :: ws
           end
  end.

(** [a.join(sep)] *)
Definition join (sep : string) (a : list string) : string := String.concat sep a.

(** [s.includes(needle)] *)
Fixpoint includes (needle s : string) : bool :=
  prefix needle s ||
  match s with
  | EmptyString => false
  | String _ s' => includes needle s'
  end.

(** Template literal interpolation of a non-negative integer. *)
Definition of_nat (n : nat) : string := NilEmpty.string_of_uint (Nat.to_uint n).

End JS.

(* ===================================================================== *)
(** ** The client: devratedraft/src/App.jsx *)
(* ===================================================================== *)

Module App.

(** *** The simulated output renderer, [getSimulatedOutput] *)

(** The longest run of [[^)]] at the head of [s], and what follows it. *)
Fixpoint span_not_rparen (s : string) : string * string :=
  match s with
  | EmptyString => (EmptyString, EmptyString)
  | String c s' =>
      if (c =? ")")%char then (EmptyString, s)
      else let (run, rest) := span_not_rparen s' in (String c run, rest)
  end.

(** [/print\s*\(([^)]+)\)/] anchored at the head of [s]: capture group 1.
    Both quantifiers are greedy and each is followed by a character outside
    its class, so giving characters back never turns a failure into a
    match. *)
Definition print_regex_here (s : string) : option string :=
  if JS.startsWith "print" s then
    match JS.trimStart (String.substring 5 (String.length s - 5) s) with
    | String "(" r =>
        match span_not_rparen r with
        | (EmptyString, _) => None
        | (run, String ")" _) => Some run
        | (_, _) => None
        end
    | _ => None
    end
  else None.

(** [line.match(/print\s*\(([^)]+)\)/)]: the leftmost match, as
    [contentMatch[1]]; [None] is JavaScript's [null]. *)
Fixpoint print_regex (s : string) : option string :=
  match print_regex_here s with
  | Some g => Some g
  | None =>
      match s with
      | EmptyString => None
      | String _ s' => print_regex s'
      end
  end.

(** Every code unit of [s] satisfies [p]. *)
Fixpoint every (p : ascii -> bool) (s : string) : bool :=
  match s with
  | EmptyString => true
  | String c s' => p c && every p s'
  end.

(** What the pattern [print\s*\(([^)]+)\)] matches at the head of a string,
    read off the pattern itself: [print], white space, an opening
    parenthesis, the group (one or more characters other than a closing
    parenthesis) and a closing parenthesis. *)
Inductive print_match : string -> string -> Prop :=
| PrintMatch (ws arg rest : string) :
    every JS.is_whitespace ws = true ->
    arg <> EmptyString ->
    every (fun c => negb (c =? ")")%char) arg = true ->
    print_match ("print" ++ ws ++ "(" ++ arg ++ ")" ++ rest) arg.

Definition placeholder : string := "...execution result...".

Definition parsed_header : string :=
  "--- Execution Output (Parsed Print Statements) ---".

Definition no_print_message : string :=
  JS.join (JS.chr JS.LF)
    [ "--- Execution Successful (Simulated) ---";
      "No explicit print statements found in code.";
      "This area will eventually display output from your cloud-based compiler.";
      "---------------------------------------";
      "Next Steps: Integrate AI Code Detector here." ].

(** The predicate of [lines.filter(...)]. *)
Definition is_print_line (line : string) : bool :=
  JS.startsWith "print(" (JS.trim line) && negb (JS.startsWith "#" (JS.trim line)).

(** The function of [.map(...)]. *)
Definition render_print (line : string) : string :=
  match print_regex line with
  | Some g =>
      let content := JS.trim g in
      if (JS.startsWith (JS.chr JS.DQUOTE) content && JS.endsWith (JS.chr JS.DQUOTE) content)
         || (JS.startsWith "'" content && JS.endsWith "'" content)
      then JS.substring 1 (String.length content - 1) content
      else content
  | None => placeholder
  end.

Definition printStatements (inputCode : string) : list string :=
  map render_print (filter is_print_line (JS.split JS.LF inputCode)).

Definition getSimulatedOutput (inputCode : string) : string :=
  let ps := printStatements inputCode in
  if Nat.ltb 0 (List.length ps)
  then JS.join (JS.chr JS.LF) (parsed_header :: ps)
  else no_print_message.

(** The buffer [print("hi")] / [print(2+2)], two lines. *)
Definition two_prints : string :=
  "print(" ++ JS.chr JS.DQUOTE ++ "hi" ++ JS.chr JS.DQUOTE ++ ")" ++ JS.chr JS.LF ++ "print(2+2)".

(** *** The component: state, widgets and timers *)

(** The calls made on the xterm.js terminal instance. *)
Inductive term_op : Type :=
| TLoadAddon
| TOpen
| TFit
| TClear
| TWrite (data : string)
| TDispose.

(** The Monaco editor instance of the component. *)
Inductive editor_status : Type :=
| NoEditor
| Live
| Disposed.

(** The calls [initTerminal] makes between storing the new terminal in
    [terminalInstanceRef] and writing its first line. *)
Inductive setup_call : Type :=
| NewFitAddon
| LoadAddon
| OpenTerminal
| FitTerminal.

(** What the browser offers when an effect or a timer callback runs: the
    globals the component reads from [window], whether the two constructors
    it calls return or throw, and which call of the terminal's setup throws,
    if one does. *)
Record window : Type := {
  w_monaco : bool;
  w_Terminal : bool;
  w_FitAddon : bool;
  editor_create_throws : bool;
  terminal_new_throws : bool;
  terminal_setup_throws : option setup_call
}.

(** A request put on the network. The component has no code that issues
    one: [requests] below stays as it starts. *)
Record http_request : Type := {
  url : string;
  script : string;
  language : string
}.

Record state : Type := {
  mounted : bool;
  code : string;                              (* useState *)
  isReady : bool;                             (* useState *)
  isLoading : bool;                           (* useState *)
  checkInterval : bool;                       (* the 200 ms interval is armed *)
  pollRuns : nat;                             (* runs of the interval callback *)
  editor : editor_status;
  settleTimer : bool;                         (* the 500 ms timeout is pending *)
  terminalInstance : option (list term_op);   (* terminalInstanceRef.current: calls, oldest first *)
  resizeListener : bool;                      (* handleResize is registered on window *)
  runTimers : list string;                    (* pending 1000 ms timeouts, oldest first: the code each captured *)
  requests : list http_request                (* requests issued so far *)
}.

Definition set_mounted (b : bool) (st : state) : state :=
  {| mounted := b; code := code st; isReady := isReady st; isLoading := isLoading st;
     checkInterval := checkInterval st; pollRuns := pollRuns st; editor := editor st;
     settleTimer := settleTimer st; terminalInstance := terminalInstance st;
     resizeListener := resizeListener st; runTimers := runTimers st; requests := requests st |}.

Definition set_code (c : string) (st : state) : state :=
  {| mounted := mounted st; code := c; isReady := isReady st; isLoading := isLoading st;
     checkInterval := checkInterval st; pollRuns := pollRuns st; editor := editor st;
     settleTimer := settleTimer st; terminalInstance := terminalInstance st;
     resizeListener := resizeListener st; runTimers := runTimers st; requests := requests st |}.

Definition set_isReady (b : bool) (st : state) : state :=
  {| mounted := mounted st; code := code st; isReady := b; isLoading := isLoading st;
     checkInterval := checkInterval st; pollRuns := pollRuns st; editor := editor st;
     settleTimer := settleTimer st; terminalInstance := terminalInstance st;
     resizeListener := resizeListener st; runTimers := runTimers st; requests := requests st |}.

Definition set_isLoading (b : bool) (st : state) : state :=
  {| mounted := mounted st; code := code st; isReady := isReady st; isLoading := b;
     checkInterval := checkInterval st; pollRuns := pollRuns st; editor := editor st;
     settleTimer := settleTimer st; terminalInstance := terminalInstance st;
     resizeListener := resizeListener st; runTimers := runTimers st; requests := requests st |}.

Definition set_checkInterval (b : bool) (st : state) : state :=
  {| mounted := mounted st; code := code st; isReady := isReady st; isLoading := isLoading st;
     checkInterval := b; pollRuns := pollRuns st; editor := editor st;
     settleTimer := settleTimer st; terminalInstance := terminalInstance st;
     resizeListener := resizeListener st; runTimers := runTimers st; requests := requests st |}.

Definition set_pollRuns (n : nat) (st : state) : state :=
  {| mounted := mounted st; code := code st; isReady := isReady st; isLoading := isLoading st;
     checkInterval := checkInterval st; pollRuns := n; editor := editor st;
     settleTimer := settleTimer st; terminalInstance := terminalInstance st;
     resizeListener := resizeListener st; runTimers := runTimers st; requests := requests st |}.

Definition set_editor (e : editor_status) (st : state) : state :=
  {| mounted := mounted st; code := code st; isReady := isReady st; isLoading := isLoading st;
     checkInterval := checkInterval st; pollRuns := pollRuns st; editor := e;
     settleTimer := settleTimer st; terminalInstance := terminalInstance st;
     resizeListener := resizeListener st; runTimers := runTimers st; requests := requests st |}.

Definition set_settleTimer (b : bool) (st : state) : state :=
  {| mounted := mounted st; code := code st; isReady := isReady st; isLoading := isLoading st;
     checkInterval := checkInterval st; pollRuns := pollRuns st; editor := editor st;
     settleTimer := b; terminalInstance := terminalInstance st;
     resizeListener := resizeListener st; runTimers := runTimers st; requests := requests st |}.

Definition set_terminalInstance (t : option (list term_op)) (st : state) : state :=
  {| mounted := mounted st; code := code st; isReady := isReady st; isLoading := isLoading st;
     checkInterval := checkInterval st; pollRuns := pollRuns st; editor := editor st;
     settleTimer := settleTimer st; terminalInstance := t;
     resizeListener := resizeListener st; runTimers := runTimers st; requests := requests st |}.

Definition set_resizeListener (b : bool) (st : state) : state :=
  {| mounted := mounted st; code := code st; isReady := isReady st; isLoading := isLoading st;
     checkInterval := checkInterval st; pollRuns := pollRuns st; editor := editor st;
     settleTimer := settleTimer st; terminalInstance := terminalInstance st;
     resizeListener := b; runTimers := runTimers st; requests := requests st |}.

Definition set_runTimers (q : list string) (st : state) : state :=
  {| mounted := mounted st; code := code st; isReady := isReady st; isLoading := isLoading st;
     checkInterval := checkInterval st; pollRuns := pollRuns st; editor := editor st;
     settleTimer := settleTimer st; terminalInstance := terminalInstance st;
     resizeListener := resizeListener st; runTimers := q; requests := requests st |}.

(** React drops a state update of a component that is no longer mounted. *)
Definition setCode (c : string) (st : state) : state :=
  if mounted st then set_code c st else st.

Definition setIsReady (b : bool) (st : state) : state :=
  if mounted st then set_isReady b st else st.

Definition setIsLoading (b : bool) (st : state) : state :=
  if mounted st then set_isLoading b st else st.

(** [term.method(...)] on an instance. *)
Definition term_call (ops : list term_op) (op : term_op) : list term_op := (ops ++ [op])%list.

Definition CRLF : string := JS.chr JS.CR ++ JS.chr JS.LF.

Definition ready_banner : string :=
  JS.chr JS.ESC ++ "[32;1mNEUDev Compiler Simulation Ready..." ++ JS.chr JS.ESC ++ "[0m" ++ CRLF.

Definition rule_line : string :=
  "----------------------------------------" ++ CRLF ++ JS.chr JS.LF.

(** The calls [writeToTerminal(text, clear)] makes on the instance. *)
Definition write_ops (text : string) (clear : bool) : list term_op :=
  ((if clear then [TClear; TWrite ready_banner; TWrite rule_line] else [])
   ++ map (fun line => TWrite (line ++ CRLF)) (JS.split JS.LF text))%list.

Definition writeToTerminal (text : string) (clear : bool) (st : state) : state :=
  match terminalInstance st with
  | Some ops => set_terminalInstance (Some (ops ++ write_ops text clear)%list) st
  | None => st
  end.

(** The main view, which holds the two mount points and the run button, is
    rendered once [isLoading] is false; before that the component returns
    the loading screen. *)
Definition main_view (st : state) : bool := mounted st && negb (isLoading st).

Definition editorRef_current (st : state) : bool := main_view st.
Definition terminalRef_current (st : state) : bool := main_view st.

(** [disabled={!isReady}] of the run button. *)
Definition run_disabled (st : state) : bool := negb (isReady st).

(** *** Effects and handlers *)

(** [window.monaco && window.Terminal && window.FitAddon] *)
Definition libraries_available (w : window) : bool :=
  w_monaco w && w_Terminal w && w_FitAddon w.

(** The callback of [setInterval(..., 200)]. *)
Definition pollCallback (w : window) (st : state) : state :=
  let st := set_pollRuns (S (pollRuns st)) st in
  if libraries_available w
  then setIsLoading false (set_checkInterval false st)   (* clearInterval(checkInterval) *)
  else st.

(** The cleanup of the polling effect: [clearInterval(checkInterval)]. *)
Definition pollCleanup (st : state) : state := set_checkInterval false st.

(** The body of the effect that creates the Monaco editor; its cleanup,
    [editor.dispose()], is returned exactly when the editor was created. *)
Definition monacoEffect (w : window) (st : state) : state :=
  if editorRef_current st && negb (isReady st) && negb (isLoading st) then
    if negb (w_monaco w) then st                       (* console.error; return *)
    else if editor_create_throws w then st               (* caught by the try *)
    else set_settleTimer true (set_editor Live st)       (* setTimeout(..., 500) *)
  else st.

Definition monacoCleanup (st : state) : state :=
  match editor st with
  | Live => set_editor Disposed st
  | _ => st
  end.

(** The callback of [setTimeout(..., 500)]. *)
Definition settleCallback (st : state) : state := setIsReady true st.

Definition has_terminal (st : state) : bool :=
  match terminalInstance st with Some _ => true | None => false end.

(** [w] makes the setup call [c] throw. *)
Definition throws_at (w : window) (c : setup_call) : bool :=
  match terminal_setup_throws w, c with
  | Some NewFitAddon, NewFitAddon
  | Some LoadAddon, LoadAddon
  | Some OpenTerminal, OpenTerminal
  | Some FitTerminal, FitTerminal => true
  | _, _ => false
  end.

(** A call on the instance [terminalInstanceRef.current] that returns. *)
Definition call_terminal (op : term_op) (st : state) : state :=
  match terminalInstance st with
  | Some ops => set_terminalInstance (Some (term_call ops op)) st
  | None => st
  end.

(** [initTerminal]. The new terminal is stored in the ref before the rest
    of the setup; a call of the setup that throws is caught by the [try],
    which leaves the ref as it is and returns the cleanup that does
    nothing. *)
Definition initTerminal (w : window) (st : state) : state :=
  if terminalRef_current st && negb (has_terminal st) && negb (isLoading st) then
    if negb (w_Terminal w) || negb (w_FitAddon w) then st   (* console.error; return *)
    else if terminal_new_throws w then st                   (* caught by the try *)
    else
      let st := set_terminalInstance (Some []) st in        (* terminalInstanceRef.current = term *)
      if throws_at w NewFitAddon then st else
      if throws_at w LoadAddon then st else
      let st := call_terminal TLoadAddon st in
      if throws_at w OpenTerminal then st else
      let st := call_terminal TOpen st in
      if throws_at w FitTerminal then st else
      let st := call_terminal TFit st in
      let st := writeToTerminal "NEUDev Compiler Simulation Initializing..." false st in
      set_resizeListener true st
  else st.

Definition terminalEffect (w : window) (st : state) : state :=
  if negb (isLoading st) then initTerminal w st else st.

(** The cleanup [initTerminal] returns once the listener is registered. *)
Definition terminalCleanup (st : state) : state :=
  if resizeListener st then
    let st := set_resizeListener false st in
    match terminalInstance st with
    | Some ops => set_terminalInstance (Some (term_call ops TDispose)) st
    | None => st
    end
  else st.

Definition handleResize (st : state) : state :=
  if resizeListener st then
    match terminalInstance st with
    | Some ops => set_terminalInstance (Some (term_call ops TFit)) st
    | None => st
    end
  else st.

Definition compiling_text : string :=
  "Compiling and running code..." ++ JS.chr JS.LF ++ JS.chr JS.LF.

(** The callback of [setTimeout(..., 1000)] in [handleRunCode], for the
    value of [code] its closure holds. *)
Definition runCallback (captured : string) (st : state) : state :=
  let output := getSimulatedOutput captured in
  writeToTerminal output true st.

Definition handleRunCode (st : state) : state :=
  if negb (isReady st) then st
  else
    let st := writeToTerminal compiling_text true st in
    set_runTimers (runTimers st ++ [code st]) st.

(** *** The life of one mounted component *)

Definition initial_code : string :=
  "print(" ++ JS.chr JS.DQUOTE ++ "Hello, NEUDev!" ++ JS.chr JS.DQUOTE ++ ")"
  ++ JS.chr JS.LF ++ JS.chr JS.LF
  ++ "# Your code analysis model will integrate here later!" ++ JS.chr JS.LF.

(** After the first render and its effects: the interval is armed; the
    other two effects find [isLoading] true and do nothing. *)
Definition init : state :=
  {| mounted := true; code := initial_code; isReady := false; isLoading := true;
     checkInterval := true; pollRuns := 0; editor := NoEditor; settleTimer := false;
     terminalInstance := None; resizeListener := false; runTimers := []; requests := [] |}.

Inductive event : Type :=
| Tick (w : window)          (* 200 ms have passed *)
| Settle (w : window)        (* the 500 ms timeout is due *)
| Edit (content : string)    (* the editor reports a content change *)
| ClickRun                   (* the user clicks the run button *)
| RunTimeout                 (* the oldest 1000 ms timeout is due *)
| Resize                     (* the window is resized *)
| Unmount.

(** One event. A timer runs its callback only while it is armed; an effect
    runs after the render in which one of its dependencies changed, after
    the cleanup its previous run returned. *)
Definition step (e : event) (st : state) : state :=
  match e with
  | Tick w =>
      if checkInterval st then
        let st' := pollCallback w st in
        if Bool.eqb (isLoading st') (isLoading st) then st'
        else terminalEffect w (monacoEffect w st')
      else st
  | Settle w =>
      if settleTimer st then
        let st' := settleCallback (set_settleTimer false st) in
        if Bool.eqb (isReady st') (isReady st) then st'
        else monacoEffect w (monacoCleanup st')
      else st
  | Edit content =>
      match editor st with
      | Live => setCode content st
      | _ => st
      end
  | ClickRun =>
      if main_view st && negb (run_disabled st) then handleRunCode st else st
  | RunTimeout =>
      match runTimers st with
      | captured :: q => runCallback captured (set_runTimers q st)
      | [] => st
      end
  | Resize => handleResize st
  | Unmount =>
      if mounted st
      then set_mounted false (terminalCleanup (monacoCleanup (pollCleanup st)))
      else st
  end.

Definition run (es : list event) (st : state) : state :=
  fold_left (fun s e => step e s) es st.

(** A browser in which the three libraries are loaded and both
    constructors return. *)
Definition loaded : window :=
  {| w_monaco := true; w_Terminal := true; w_FitAddon := true;
     editor_create_throws := false; terminal_new_throws := false;
   terminal_setup_throws := None |}.

(** The component once the libraries were seen and the settle delay is over. *)
Definition interactive : state := run [Tick loaded; Settle loaded] init.

(** The endpoint of the relay. *)
Definition relay_endpoint : string := "/api/execute".

(** *** Reading the terminal and the buffer *)

(** All the data passed to [term.write], in order. *)
Fixpoint written (ops : list term_op) : string :=
  match ops with
  | [] => EmptyString
  | TWrite data :: ops' => data ++ written ops'
  | _ :: ops' => written ops'
  end.

(** [text] with a carriage return put before every line feed. *)
Fixpoint crlf_newlines (text : string) : string :=
  match text with
  | EmptyString => EmptyString
  | String c text' =>
      if (c =? JS.LF)%char then CRLF ++ crlf_newlines text'
      else String c (crlf_newlines text')
  end.

Definition no_line_feed (s : string) : bool :=
  every (fun c => negb (c =? JS.LF)%char) s.

Definition no_rparen (s : string) : bool :=
  every (fun c => negb (c =? ")")%char) s.

(** The test of [render_print] for an argument enclosed in quotes. *)
Definition is_quoted (content : string) : bool :=
  (JS.startsWith (JS.chr JS.DQUOTE) content && JS.endsWith (JS.chr JS.DQUOTE) content)
  || (JS.startsWith "'" content && JS.endsWith "'" content).


(** The setup calls that have returned when the call [c] throws. *)
Definition calls_before (c : setup_call) : list term_op :=
  match c with
  | NewFitAddon | LoadAddon => []
  | OpenTerminal => [TLoadAddon]
  | FitTerminal => [TLoadAddon; TOpen]
  end.

(** The calls [initTerminal] makes on a terminal it has just constructed. *)
Definition terminal_opening : list term_op :=
  [TLoadAddon; TOpen; TFit; TWrite ("NEUDev Compiler Simulation Initializing..." ++ CRLF)].

Definition is_status (wanted : editor_status) (e : editor_status) : bool :=
  match wanted, e with
  | NoEditor, NoEditor | Live, Live | Disposed, Disposed => true
  | _, _ => false
  end.

(** How the flags, timers and widgets of the component hang together; see
    [coherent_step] for the proof that every event keeps it. *)
Definition coherent (st : state) : bool :=
  implb (negb (mounted st)) (negb (checkInterval st))
  && implb (mounted st) (Bool.eqb (checkInterval st) (isLoading st))
  && implb (negb (mounted st)) (negb (resizeListener st))
  && implb (is_status Live (editor st)) (mounted st)
  && implb (isLoading st) (is_status NoEditor (editor st))
  && implb (isLoading st) (negb (settleTimer st))
  && implb (isLoading st) (negb (isReady st))
  && implb (isLoading st) (negb (has_terminal st))
  && implb (isReady st) (is_status Disposed (editor st))
  && implb (isReady st) (negb (settleTimer st))
  && implb (settleTimer st && mounted st) (is_status Live (editor st))
  && implb (resizeListener st) (has_terminal st).

(** A browser in which the libraries are loaded and [fitAddon.fit()] throws. *)
Definition fit_fails : window :=
  {| w_monaco := true; w_Terminal := true; w_FitAddon := true;
     editor_create_throws := false; terminal_new_throws := false;
     terminal_setup_throws := Some FitTerminal |}.

(** A browser in which the libraries are loaded and [new Terminal] throws. *)
Definition terminal_fails : window :=
  {| w_monaco := true; w_Terminal := true; w_FitAddon := true;
     editor_create_throws := false; terminal_new_throws := true;
   terminal_setup_throws := None |}.

(** How the instance in the ref was built: in full, or up to the setup
    call that threw. *)
Definition built (st : state) (ops : list term_op) : Prop :=
  (exists rest, ops = (terminal_opening ++ rest)%list) \/
  (exists c rest, ops = (calls_before c ++ rest)%list /\
                  ~ In TDispose rest /\ ~ In TFit rest /\ resizeListener st = false).

(** The component, interactive, whose terminal could not be constructed. *)
Definition interactive_without_terminal : state :=
  run [Tick terminal_fails; Settle loaded] init.

(** A browser in which the libraries are loaded and [monaco.editor.create]
    throws. *)
Definition editor_fails : window :=
  {| w_monaco := true; w_Terminal := true; w_FitAddon := true;
     editor_create_throws := true; terminal_new_throws := false;
   terminal_setup_throws := None |}.

End App.

(* ===================================================================== *)
(** ** The relay: devratebe/server.js *)
(* ===================================================================== *)

Module Relay.

(** *** JavaScript values that come out of [JSON.parse] *)

(** A number as [JSON.parse] yields it: a finite value, kept by the rational
    it stands for, or an infinity (the parse of [1e999]); never [NaN]. *)
Inductive number : Type :=
| Finite (q : QArith_base.Q)
| Infinite (negative : bool).

(** [Undefined] is what reading a missing property gives. *)
#[warnings="-register-all"]
Inductive value : Type :=
| Undefined
| JNull
| JBool (b : bool)
| JNum (n : number)
| JStr (s : string)
| JArr (items : list value)
| JObj (fields : list (string * value)).

(** The own properties of an object, in insertion order. *)
Definition object : Type := list (string * value).

(** [o[k]] *)
Fixpoint get (k : string) (o : object) : value :=
  match o with
  | [] => Undefined
  | (k', v) :: o' => if String.eqb k k' then v else get k o'
  end.

(** ToBoolean, the test behind [!x]. *)
Definition truthy (v : value) : bool :=
  match v with
  | Undefined => false
  | JNull => false
  | JBool b => b
  | JNum (Finite q) => negb (Z.eqb (QArith_base.Qnum q) 0)
  | JNum (Infinite _) => true
  | JStr s => negb (String.eqb s EmptyString)
  | JArr _ => true
  | JObj _ => true
  end.

(** ToString fails on [v] with a TypeError. An object parsed from JSON
    that has an own property [toString] has no callable [toString], and
    [Object.prototype.valueOf] gives no primitive; an array joins the
    conversions of its elements; every other value converts. *)
Fixpoint to_string_throws (v : value) : bool :=
  match v with
  | JArr items => existsb to_string_throws items
  | JObj fields => existsb (fun kv => String.eqb (fst kv) "toString") fields
  | _ => false
  end.

(** *** Configuration and the upstream provider *)

(** [process.env]: a variable is a string or is not set. *)
Record environment : Type := {
  JDOODLE_CLIENT_ID : option string;
  JDOODLE_CLIENT_SECRET : option string
}.

Definition CLIENT_ID (env : environment) : option string := JDOODLE_CLIENT_ID env.
Definition CLIENT_SECRET (env : environment) : option string := JDOODLE_CLIENT_SECRET env.
Definition JD_API_URL : string := "https://api.jdoodle.com/v1/execute".

Record payload : Type := {
  clientId : option string;
  clientSecret : option string;
  script : value;
  language : value;
  versionIndex : string;
  stdin : string
}.

(** A thrown value, by its message. *)
Definition exn : Type := string.

(** The [Response] of [fetch], by what the handler can read from it:
    [text()] and [json()] each return or reject. *)
Record response : Type := {
  status : nat;
  res_text : exn + string;
  res_json : exn + value
}.

(** [response.ok] *)
Definition ok (r : response) : bool := Nat.leb 200 (status r) && Nat.leb (status r) 299.

Inductive fetch_result : Type :=
| NetworkError (e : exn)
| Reply (r : response).

(** The provider: what one POST of a payload to it comes back with. It
    reads the payload as the text [JSON.stringify] makes of it, in which an
    infinite number is written [null] and a credential that is not set is
    left out; its answer is in any case a function of the payload. *)
Definition provider : Type := payload -> fetch_result.

(** *** What a run of the handler does, in order *)

Inductive console_line : Type :=
| LExecuting (language : value)         (* `Executing ${language} script...` *)
| LStatus (status : nat)                (* `[JDoodle Check] API Response Status: ${status}` *)
| LErrorBody (errorText : string)       (* '[JDoodle Check] Full Error Body:', errorText *)
| LParsed (result : value)              (* '[JDoodle Check] Parsed JSON Result:', result *)
| LCallError (error : exn).             (* 'Error calling JDoodle API:', error *)

Inductive event : Type :=
| ConsoleLog (line : console_line)
| ConsoleError (line : console_line)
| Fetch (url : string) (body : payload)
| Respond (code : nat) (body : value).

(** Computations that leave a trace and return or throw. *)
Definition M (A : Type) : Type := (list event * (exn + A))%type.

Definition ret {A : Type} (a : A) : M A := ([], inr a).

Definition throw {A : Type} (e : exn) : M A := ([], inl e).

Definition bind {A B : Type} (m : M A) (f : A -> M B) : M B :=
  match m with
  | (t, inl e) => (t, inl e)
  | (t, inr a) => let (t', r) := f a in ((t ++ t')%list, r)
  end.

Definition try_catch {A : Type} (m : M A) (h : exn -> M A) : M A :=
  match m with
  | (t, inl e) => let (t', r) := h e in ((t ++ t')%list, r)
  | (t, inr a) => (t, inr a)
  end.

Definition emit (ev : event) : M unit := ([ev], inr tt).

(** [await p] for a promise that resolves or rejects. *)
Definition await {A : Type} (r : exn + A) : M A :=
  match r with
  | inl e => throw e
  | inr a => ret a
  end.

Declare Scope relay_scope.
Delimit Scope relay_scope with relay.
Notation "x <- m ;; k" := (bind m (fun x => k))
  (at level 61, m at next level, right associativity) : relay_scope.
Notation "m ;; k" := (bind m (fun _ => k))
  (at level 61, right associativity) : relay_scope.
Local Open Scope relay_scope.

Section Handler.

Variable env : environment.
Variable upstream : provider.

(** [await fetch(url, { method: 'POST', ..., body: JSON.stringify(p) })] *)
Definition fetch (url : string) (p : payload) : M response :=
  emit (Fetch url p) ;;
  match upstream p with
  | NetworkError e => throw e
  | Reply r => ret r
  end.

(** The value [v] put into a template literal: the literal is evaluated
    only if [v] converts to a string. *)
Definition template (v : value) : M value :=
  if to_string_throws v
  then throw "TypeError: Cannot convert object to primitive value"
  else ret v.

(** [res.status(code).json(body)] *)
Definition respond (code : nat) (body : value) : M unit := emit (Respond code body).

Definition executionPayload (script language : value) : payload :=
  {| clientId := CLIENT_ID env;
     clientSecret := CLIENT_SECRET env;
     script := script;
     language := language;
     versionIndex := "0";
     stdin := EmptyString |}.

(** The body of [app.post('/api/execute', async (req, res) => ...)] for a
    [req.body] that is an object: what [express.json()] parsed from the
    request. The two log lines stand before the [try]: what their template
    literals throw leaves the handler. *)
Definition execute (body : object) : M unit :=
  let script := get "script" body in
  let language := get "language" body in
  if negb (truthy script) || negb (truthy language) then
    respond 400 (JObj [("error", JStr "Missing code or language in request.")])
  else
    let executionPayload := executionPayload script language in
    shown <- template language ;;
    emit (ConsoleLog (LExecuting shown)) ;;
    shown <- template language ;;
    emit (ConsoleLog (LExecuting shown)) ;;
    try_catch
      (jdoodleResponse <- fetch JD_API_URL executionPayload ;;
       emit (ConsoleLog (LStatus (status jdoodleResponse))) ;;
       if negb (ok jdoodleResponse) then
         errorText <- await (res_text jdoodleResponse) ;;
         emit (ConsoleError (LErrorBody errorText)) ;;
         respond 502
           (JObj [("error", JStr "Compiler Service Authentication or API Error.");
                  ("detail", JStr ("JDoodle returned status " ++ JS.of_nat (status jdoodleResponse)));
                  ("jdoodleError", JStr errorText)])
       else
         result <- await (res_json jdoodleResponse) ;;
         emit (ConsoleLog (LParsed result)) ;;
         respond 200 result)
      (fun error =>
         emit (ConsoleError (LCallError error)) ;;
         respond 500 (JObj [("error", JStr "Internal server error while executing code.")])).

(** The handler on [req.body] as the framework leaves it: [None] is
    [undefined], the body of a request of which [express.json()] parsed
    nothing under Express 5 (Express 4 leaves the empty object);
    destructuring it throws before anything else is done. *)
Definition handler (req_body : option object) : M unit :=
  match req_body with
  | None => throw "TypeError: Cannot destructure property 'script' of 'req.body' as it is undefined."
  | Some body => execute body
  end.

End Handler.

(** *** What the two parties see of a run *)

Definition trace {A : Type} (m : M A) : list event := fst m.

(** The responses written to the client, in order. *)
Fixpoint responses (t : list event) : list (nat * value) :=
  match t with
  | [] => []
  | Respond code body :: t' => (code, body) :: responses t'
  | _ :: t' => responses t'
  end.

(** The payloads sent to the provider, in order. *)
Fixpoint upstream_calls (t : list event) : list payload :=
  match t with
  | [] => []
  | Fetch _ p :: t' => p :: upstream_calls t'
  | _ :: t' => upstream_calls t'
  end.

(** A request field that is missing or is the empty string. *)
Definition absent (v : value) : Prop := v = Undefined \/ v = JStr EmptyString.

(** The call to the provider fails below HTTP, or the body of a success
    reply does not parse. *)
Definition transport_failure (o : fetch_result) (e : exn) : Prop :=
  o = NetworkError e \/
  exists r, o = Reply r /\ ok r = true /\ res_json r = inl e.

(** [needle] occurs in a string or a property name of [v]. *)
Fixpoint mentions (needle : string) (v : value) : bool :=
  match v with
  | JStr s => JS.includes needle s
  | JArr items => existsb (mentions needle) items
  | JObj fields =>
      existsb (fun kv => match kv with
                         | (k, v') => JS.includes needle k || mentions needle v'
                         end) fields
  | _ => false
  end.

(** *** Sample configuration, requests and providers *)

Definition sample_env : environment :=
  {| JDOODLE_CLIENT_ID := Some "client-7f3a"; JDOODLE_CLIENT_SECRET := Some "s3cr3t-91c4" |}.

Definition other_env : environment :=
  {| JDOODLE_CLIENT_ID := Some "client-0b12"; JDOODLE_CLIENT_SECRET := None |}.

Definition sample_request : object :=
  [("script", JStr "print(1)"); ("language", JStr "python3")].

(** The payload the relay builds for [sample_request] under [sample_env]. *)
Definition sample_payload : payload :=
  {| clientId := Some "client-7f3a"; clientSecret := Some "s3cr3t-91c4";
     script := JStr "print(1)"; language := JStr "python3";
     versionIndex := "0"; stdin := EmptyString |}.

(** A provider that rejects every call with 401 and a plain body. *)
Definition unauthorized : provider :=
  fun _ => Reply {| status := 401;
                    res_text := inr "Unauthorized";
                    res_json := inl "Unexpected token U in JSON at position 0" |}.

(** A provider that rejects every call and names the secret it was given. *)
Definition echoing : provider :=
  fun p => Reply {| status := 401;
                    res_text := inr ("Invalid clientSecret: " ++
                                     match clientSecret p with Some k => k | None => "undefined" end);
                    res_json := inl "Unexpected token I in JSON at position 0" |}.

(** A provider that runs the script and reports its output, 42. *)
Definition answers_42 : provider :=
  fun _ => Reply {| status := 200;
                    res_text := inr ("{" ++ JS.chr JS.DQUOTE ++ "output" ++ JS.chr JS.DQUOTE ++ ":"
                                     ++ JS.chr JS.DQUOTE ++ "42" ++ JS.chr JS.DQUOTE ++ "}");
                    res_json := inr (JObj [("output", JStr "42")]) |}.

(** A provider that cannot be reached. *)
Definition unreachable : provider :=
  fun _ => NetworkError "fetch failed".

(** What the operator's console and the client see of a run: everything
    but the requests to the provider. *)
Fixpoint visible (t : list event) : list event :=
  match t with
  | [] => []
  | Fetch _ _ :: t' => visible t'
  | ev :: t' => ev :: visible t'
  end.

(** The requests to the provider, each with its address. *)
Fixpoint fetches (t : list event) : list (string * payload) :=
  match t with
  | [] => []
  | Fetch url p :: t' => (url, p) :: fetches t'
  | _ :: t' => fetches t'
  end.

(** The payload a run sends when the request passes the guard. *)
Definition sent_by (env : environment) (body : object) : payload :=
  executionPayload env (get "script" body) (get "language" body).

(** The requests the handler leaves without an answer: it throws on them
    before its [try]. *)
Definition leaves_unanswered (req_body : option object) : bool :=
  match req_body with
  | None => true
  | Some body =>
      truthy (get "script" body) && truthy (get "language" body)
      && to_string_throws (get "language" body)
  end.

(** A request whose language is an object with an own [toString]. *)
Definition unprintable_request : object :=
  [("script", JStr "print(1)"); ("language", JObj [("toString", JNum (Finite (QArith_base.Qmake 1 1)))])].

(** A provider whose error reply breaks off before its body is read. *)
Definition broken_body : provider :=
  fun _ => Reply {| status := 503;
                    res_text := inl "terminated";
                    res_json := inl "terminated" |}.

End Relay.

(* ===================================================================== *)
(** ** The style sheet of the terminal: the top of App.jsx *)
(* ===================================================================== *)

Module Page.

(** An element, by what the injection reads and writes. *)
Record element : Type := {
  tagName : string;
  id : string;
  textContent : string
}.

(** The elements of the document: the children of [head], and the rest. *)
Record document : Type := {
  head : list element;
  others : list element
}.

Definition XTERM_CSS : string :=
  JS.join (JS.chr JS.LF)
    [ EmptyString;
      "  /* Use the main Xterm CSS file from a CDN for full styling */";
      "  @import url('https://cdnjs.cloudflare.com/ajax/libs/xterm/5.5.0/xterm.min.css');";
      "  ";
      "  /* Custom styles to ensure proper height and overflow */";
      "  .xterm .xterm-viewport {";
      "    overflow-y: auto !important;";
      "  }";
      "  .xterm {";
      "    padding: 8px;";
      "    height: 100%;";
      "    width: 100%;";
      "    box-sizing: border-box;";
      "  }";
      EmptyString ].

(** [document.getElementById(i)], as the test [!...] reads it. *)
Definition hasElementById (i : string) (d : document) : bool :=
  existsb (fun e => String.eqb (id e) i) (head d ++ others d).

Definition xterm_style : element :=
  {| tagName := "style"; id := "xterm-custom-style"; textContent := XTERM_CSS |}.

(** The function called where the module is loaded; [None] is a runtime
    without [document]. *)
Definition injectXtermCss (doc : option document) : option document :=
  match doc with
  | None => None
  | Some d =>
      if negb (hasElementById "xterm-custom-style" d)
      then Some {| head := head d ++ [xterm_style]; others := others d |}
      else Some d
  end.

End Page.

(* ===================================================================== *)
(** ** Properties of the client *)
(* ===================================================================== *)

Module AppSpec.
Import App.

(** *** Strings *)

Lemma filter_none {A : Type} (f : A -> bool) (l : list A) :
  (forall x, In x l -> f x = false) -> filter f l = [].
Proof.
  induction l as [|a l IH]; intros H; simpl; [reflexivity|].
  rewrite (H a (or_introl eq_refl)). apply IH. intros x Hx. apply H. now right.
Qed.

Lemma join_cons_nonempty (sep h : string) (c : ascii) (t : string) (l : list string) :
  h = String c t -> JS.join sep (h :: l) <> EmptyString.
Proof.
  intros ->. unfold JS.join. simpl. destruct l; simpl; discriminate.
Qed.

(** The renderer never returns the empty string. *)
Lemma getSimulatedOutput_nonempty (buffer : string) :
  getSimulatedOutput buffer <> EmptyString.
Proof.
  unfold getSimulatedOutput.
  destruct (Nat.ltb 0 (List.length (printStatements buffer))).
  - eapply join_cons_nonempty. reflexivity.
  - unfold no_print_message. eapply join_cons_nonempty. reflexivity.
Qed.

(** The second conjunct of the filter never decides: a line that starts
    with [print(] does not start with [#]. *)
Lemma is_print_line_prefix (line : string) :
  is_print_line line = JS.startsWith "print(" (JS.trim line).
Proof.
  unfold is_print_line, JS.startsWith.
  destruct (JS.trim line) as [|c t]; [reflexivity|].
  destruct (ascii_dec "#" c) as [<-|Hc]; [reflexivity|].
  assert (Hsharp : prefix "#" (String c t) = false).
  { cbn [prefix]. destruct (ascii_dec "#" c); [contradiction|reflexivity]. }
  rewrite Hsharp. apply andb_true_r.
Qed.

(** *** The string primitives on small inputs *)

Example split_keeps_last_empty_line :
  JS.split JS.LF ("a" ++ JS.chr JS.LF ++ "b" ++ JS.chr JS.LF) = ["a"; "b"; EmptyString].
Proof. reflexivity. Qed.

Example split_of_empty : JS.split JS.LF EmptyString = [EmptyString].
Proof. reflexivity. Qed.

Example trim_both_ends :
  JS.trim (JS.chr "009" ++ "  print(1) " ++ JS.chr JS.CR) = "print(1)".
Proof. reflexivity. Qed.

Example substring_swaps : JS.substring 1 0 "'" = "'".
Proof. reflexivity. Qed.

Example of_nat_502 : JS.of_nat 502 = "502".
Proof. reflexivity. Qed.

(** The renderer line by line: a quoted argument loses its quotes, any
    other argument is listed as written, and a line without a match of the
    pattern gives the placeholder. *)
Example render_samples :
  map render_print
    [ "print('a b')"; "  print( x + 1 ) # sum"; "print(f(x))"; "print() print(y)";
      "print()"; "print('" ]
  = [ "a b"; "x + 1"; "f(x"; "y"; placeholder; placeholder ].
Proof. reflexivity. Qed.

(** *** The regular expression of the renderer *)

Lemma substring_all (s : string) : String.substring 0 (String.length s) s = s.
Proof. induction s; cbn; [reflexivity | now f_equal]. Qed.

Lemma trimStart_app (ws s : string) :
  every JS.is_whitespace ws = true -> JS.trimStart (ws ++ s) = JS.trimStart s.
Proof.
  induction ws as [|c ws IH]; cbn [every append JS.trimStart]; [reflexivity|].
  intros H. apply andb_true_iff in H as [Hc Hws]. rewrite Hc. now apply IH.
Qed.

Lemma trimStart_split (s : string) :
  exists ws, s = ws ++ JS.trimStart s /\ every JS.is_whitespace ws = true.
Proof.
  induction s as [|c s (ws & Hs & Hws)]; [now exists EmptyString|].
  cbn [JS.trimStart]. destruct (JS.is_whitespace c) eqn:Hc.
  - exists (String c ws). cbn [append every]. rewrite Hc, Hws. split; [now f_equal|reflexivity].
  - now exists EmptyString.
Qed.

Lemma span_app (arg rest : string) :
  every (fun c => negb (c =? ")")%char) arg = true ->
  span_not_rparen (arg ++ String ")" rest) = (arg, String ")" rest).
Proof.
  induction arg as [|c arg IH]; cbn [every append span_not_rparen]; [reflexivity|].
  intros H. apply andb_true_iff in H as [Hc Harg].
  apply negb_true_iff in Hc. rewrite Hc, (IH Harg). reflexivity.
Qed.

Lemma span_split (s run rest : string) :
  span_not_rparen s = (run, rest) ->
  s = run ++ rest /\ every (fun c => negb (c =? ")")%char) run = true.
Proof.
  revert run rest. induction s as [|c s IH]; cbn [span_not_rparen]; intros run rest H.
  - injection H as <- <-. now split.
  - destruct (c =? ")")%char eqn:Hc.
    + injection H as <- <-. now split.
    + destruct (span_not_rparen s) as [run' rest'] eqn:Hs.
      injection H as <- <-. destruct (IH _ _ eq_refl) as [-> Hrun].
      cbn [append every]. rewrite Hc, Hrun. now split.
Qed.

Lemma prefix_app (p s : string) : prefix p (p ++ s) = true.
Proof.
  induction p as [|c p IH]; [now destruct s|].
  cbn [append prefix]. destruct (ascii_dec c c); [exact IH | contradiction].
Qed.

(** [print_regex_here] computes the match of the pattern at the head of a
    string: the match, when there is one, is unique. *)
Lemma print_regex_here_spec (s g : string) :
  print_regex_here s = Some g <-> print_match s g.
Proof.
  split.
  - unfold print_regex_here, JS.startsWith. intros H.
    destruct (prefix "print" s) eqn:Hp; [|discriminate].
    apply prefix_correct in Hp. cbn [String.length] in Hp.
    destruct s as [|c1 [|c2 [|c3 [|c4 [|c5 s]]]]]; try discriminate Hp.
    cbn in Hp. injection Hp as -> -> -> -> ->.
    cbn [String.length Nat.sub String.substring] in H.
    rewrite Nat.sub_0_r, substring_all in H.
    destruct (trimStart_split s) as (ws & Hs & Hws).
    destruct (JS.trimStart s) as [|c r]; [discriminate|].
    destruct (ascii_dec c "(") as [->|Hc].
    + destruct (span_not_rparen r) as [run rest] eqn:Hspan.
      destruct (span_split _ _ _ Hspan) as [-> Hrun].
      destruct run as [|a run]; [discriminate|].
      destruct rest as [|b rest]; [discriminate|].
      destruct (ascii_dec b ")") as [->|Hb].
      * injection H as <-. rewrite Hs.
        apply (PrintMatch ws (String a run) rest Hws); [discriminate | exact Hrun].
      * exfalso. revert H.
        destruct b as [[] [] [] [] [] [] [] []]; try discriminate. now destruct Hb.
    + exfalso. revert H.
      destruct c as [[] [] [] [] [] [] [] []]; try discriminate. now destruct Hc.
  - intros [ws arg rest Hws Harg Hrun].
    unfold print_regex_here, JS.startsWith.
    rewrite prefix_app.
    cbn [append String.length Nat.sub String.substring].
    rewrite Nat.sub_0_r, substring_all.
    rewrite (trimStart_app _ _ Hws). cbn [append JS.trimStart].
    replace (JS.is_whitespace "(") with false by reflexivity.
    rewrite (span_app _ _ Hrun).
    destruct arg; [now destruct Harg | reflexivity].
Qed.

Lemma print_regex_unfold (s : string) :
  print_regex s =
  match print_regex_here s with
  | Some g => Some g
  | None => match s with
            | EmptyString => None
            | String _ s' => print_regex s'
            end
  end.
Proof. destruct s; reflexivity. Qed.

(** [print_regex] returns the group of the leftmost match. *)
Lemma print_regex_leftmost (s g : string) :
  print_regex s = Some g <->
  exists pre suf,
    s = pre ++ suf /\ print_match suf g /\
    forall pre' suf' g',
      s = pre' ++ suf' -> String.length pre' < String.length pre -> ~ print_match suf' g'.
Proof.
  split.
  - revert g. induction s as [|c s IH]; intros g; rewrite print_regex_unfold.
    + discriminate.
    + destruct (print_regex_here (String c s)) as [g0|] eqn:Hhere.
      * intros [= ->]. exists EmptyString, (String c s).
        split; [reflexivity|]. split; [now apply print_regex_here_spec|].
        cbn. intros ? ? ? _ Hlt. inversion Hlt.
      * intros H. destruct (IH g H) as (pre & suf & -> & Hm & Hleft).
        exists (String c pre), suf. split; [reflexivity|]. split; [exact Hm|].
        intros pre' suf' g' Heq Hlt Hm'. destruct pre' as [|c' pre'].
        -- cbn in Heq. subst suf'. apply print_regex_here_spec in Hm'. congruence.
        -- cbn in Heq. injection Heq as <- Heq. cbn in Hlt.
           apply (Hleft pre' suf' g' Heq); [lia | exact Hm'].
  - intros (pre & suf & Heq & Hm & Hleft). revert s Heq Hleft.
    induction pre as [|c pre IH]; intros s Heq Hleft; rewrite print_regex_unfold.
    + cbn in Heq. subst s. apply print_regex_here_spec in Hm. now rewrite Hm.
    + cbn in Heq. subst s.
      destruct (print_regex_here (String c (pre ++ suf))) as [g0|] eqn:Hhere.
      * exfalso. apply print_regex_here_spec in Hhere.
        apply (Hleft EmptyString (String c (pre ++ suf)) g0); [reflexivity | cbn; lia | exact Hhere].
      * apply IH; [reflexivity|].
        intros pre' suf' g' Heq Hlt. apply (Hleft (String c pre') suf' g').
        -- cbn. now f_equal.
        -- cbn. lia.
Qed.

Lemma render_print_no_match (line : string) :
  print_regex line = None -> render_print line = placeholder.
Proof. unfold render_print. now intros ->. Qed.

(** *** The simulated output renderer *)

(** C7, as stated, fails: on the buffer [print("hi")] / [print(2+2)] the
    second listed line is not the placeholder marker, and the marker occurs
    nowhere in the result. *)
Lemma C7_counterexample :
  nth_error (printStatements two_prints) 1 <> Some placeholder /\
  JS.includes placeholder (getSimulatedOutput two_prints) = false.
Proof. split; [discriminate | reflexivity]. Qed.

(** A non-empty argument without a closing parenthesis that is not
    enclosed in quotes is listed as it is written, trimmed. *)
Lemma unquoted_argument_rendered (a : string) :
  a <> EmptyString -> no_rparen a = true -> is_quoted (JS.trim a) = false ->
  render_print ("print(" ++ a ++ ")") = JS.trim a.
Proof.
  intros Ha Hrp Hq.
  assert (Hhere : print_regex_here ("print(" ++ a ++ ")") = Some a).
  { apply print_regex_here_spec.
    change ("print(" ++ a ++ ")")
      with ("print" ++ EmptyString ++ "(" ++ a ++ ")" ++ EmptyString).
    constructor; [reflexivity | exact Ha | exact Hrp]. }
  unfold render_print. rewrite print_regex_unfold, Hhere. cbv zeta.
  unfold is_quoted in Hq. now rewrite Hq.
Qed.

(** C7, amended: on the buffer [print("hi")] / [print(2+2)] the renderer
    returns the header line, then [hi], then the argument text [2+2], and
    nowhere the placeholder marker: a non-empty argument without a
    closing parenthesis that is not enclosed in quotes is listed as it is
    written, trimmed. *)
Theorem C7_second_line_is_argument_text :
  getSimulatedOutput two_prints = JS.join (JS.chr JS.LF) [parsed_header; "hi"; "2+2"] /\
  JS.includes placeholder (getSimulatedOutput two_prints) = false /\
  (forall a, a <> EmptyString -> no_rparen a = true -> is_quoted (JS.trim a) = false ->
             render_print ("print(" ++ a ++ ")") = JS.trim a).
Proof.
  split; [reflexivity|]. split; [reflexivity|].
  exact unquoted_argument_rendered.
Qed.

Lemma C7_witness : render_print "print(2+2)" = "2+2".
Proof.
  exact (proj2 (proj2 C7_second_line_is_argument_text) "2+2"
           (fun H => ltac:(discriminate H)) eq_refl eq_refl).
Defined.

(** C8: a buffer none of whose lines is an output-producing call (a line
    that, trimmed, starts with [print(]) renders to the fixed informational
    message, and the result is not the empty string. *)
Theorem C8_no_print_gives_fixed_message (buffer : string) :
  (forall line, In line (JS.split JS.LF buffer) -> is_print_line line = false) ->
  getSimulatedOutput buffer = no_print_message /\
  getSimulatedOutput buffer <> EmptyString.
Proof.
  intros Hnone. split; [|apply getSimulatedOutput_nonempty].
  unfold getSimulatedOutput, printStatements.
  now rewrite (filter_none _ _ Hnone).
Qed.

Lemma C8_witness :
  getSimulatedOutput "x = 1" = no_print_message /\
  getSimulatedOutput "x = 1" <> EmptyString.
Proof.
  apply (C8_no_print_gives_fixed_message "x = 1").
  simpl. intros line [<-|[]]. reflexivity.
Defined.

(** *** The component *)

(** [initTerminal] in one piece: what it leaves in the ref, by the call of
    the setup that throws, and the listener it registers when none does. *)
Lemma initTerminal_closed (w : window) (st : state) :
  initTerminal w st =
  if terminalRef_current st && negb (has_terminal st) && negb (isLoading st) then
    if negb (w_Terminal w) || negb (w_FitAddon w) then st
    else if terminal_new_throws w then st
    else match terminal_setup_throws w with
         | Some c => set_terminalInstance (Some (calls_before c)) st
         | None => set_resizeListener true (set_terminalInstance (Some terminal_opening) st)
         end
  else st.
Proof.
  unfold initTerminal, throws_at.
  destruct (terminalRef_current st && negb (has_terminal st) && negb (isLoading st));
    [|reflexivity].
  destruct (negb (w_Terminal w) || negb (w_FitAddon w)); [reflexivity|].
  destruct (terminal_new_throws w); [reflexivity|].
  destruct st; destruct (terminal_setup_throws w) as [[]|]; reflexivity.
Qed.

Ltac unfold_handlers :=
  unfold step, pollCallback, pollCleanup, monacoEffect, monacoCleanup,
    settleCallback, terminalEffect, terminalCleanup in *;
  rewrite ?initTerminal_closed in *;
  unfold handleResize, runCallback, handleRunCode, writeToTerminal, term_call,
    setCode, setIsReady, setIsLoading, editorRef_current,
    terminalRef_current, main_view, run_disabled, has_terminal in *.

Ltac split_cases :=
  repeat match goal with
    | |- context [if ?b then _ else _] => destruct b eqn:?; cbn in *
    | |- context [match ?x with _ => _ end] => destruct x eqn:?; cbn in *
    end.

Ltac crunch st :=
  unfold_handlers; destruct st; cbn in *; split_cases;
  cbn in *; subst; try congruence; auto.

Lemma run_app (es es' : list event) (st : state) :
  run (es ++ es') st = run es' (run es st).
Proof. unfold run. apply fold_left_app. Qed.

(** No event arms the interval, and a cancelled interval runs no callback. *)
Lemma step_cancelled (e : event) (st : state) :
  checkInterval st = false ->
  checkInterval (step e st) = false /\ pollRuns (step e st) = pollRuns st.
Proof. intros H. destruct e; crunch st. Qed.

Lemma run_cancelled (es : list event) (st : state) :
  checkInterval st = false ->
  checkInterval (run es st) = false /\ pollRuns (run es st) = pollRuns st.
Proof.
  revert st. induction es as [|e es IH]; intros st H; [now split|].
  destruct (step_cancelled e st H) as [Hc Hp].
  destruct (IH (step e st) Hc) as [Hc' Hp'].
  cbn. fold (run es (step e st)). split; congruence.
Qed.

(** What holds of every state the component reaches. *)
Definition invariant (st : state) : Prop :=
  (mounted st = false -> checkInterval st = false) /\
  (settleTimer st = true -> mounted st = true -> editor st = Live).

Lemma invariant_init : invariant init.
Proof. split; cbn; congruence. Qed.

Lemma invariant_step (e : event) (st : state) :
  invariant st -> invariant (step e st).
Proof.
  intros [H1 H2]. split; intros; destruct e; crunch st.
Qed.

Lemma invariant_run (es : list event) (st : state) :
  invariant st -> invariant (run es st).
Proof.
  revert st. induction es as [|e es IH]; intros st H; [exact H|].
  cbn. apply IH. now apply invariant_step.
Qed.

(** C9: from any state the component reaches, a tick that finds the three
    libraries on [window] leaves the polling interval cancelled, and
    whatever happens afterwards its callback does not run again; and
    unmounting leaves the interval cancelled as well, whether or not the
    libraries were ever seen. *)
Theorem C9_poll_timer_cancelled (es : list event) (w : window) :
  libraries_available w = true ->
  let st := run es init in
  checkInterval (step (Tick w) st) = false /\
  (forall later,
      checkInterval (run later (step (Tick w) st)) = false /\
      pollRuns (run later (step (Tick w) st)) = pollRuns (step (Tick w) st)) /\
  checkInterval (step Unmount st) = false /\
  (forall later,
      checkInterval (run later (step Unmount st)) = false /\
      pollRuns (run later (step Unmount st)) = pollRuns (step Unmount st)).
Proof.
  intros Hw st.
  assert (Htick : checkInterval (step (Tick w) st) = false).
  { clearbody st. unfold step, pollCallback. rewrite Hw. crunch st. }
  assert (Hunmount : checkInterval (step Unmount st) = false).
  { destruct (invariant_run es init invariant_init) as [Hinv _].
    fold st in Hinv. clearbody st. crunch st. }
  split; [exact Htick|]. split; [intros later; now apply run_cancelled|].
  split; [exact Hunmount|]. intros later; now apply run_cancelled.
Qed.

Lemma C9_witness :
  let st := run [Tick loaded; ClickRun] init in
  checkInterval (step (Tick loaded) st) = false /\
  (forall later,
      checkInterval (run later (step (Tick loaded) st)) = false /\
      pollRuns (run later (step (Tick loaded) st)) = pollRuns (step (Tick loaded) st)) /\
  checkInterval (step Unmount st) = false /\
  (forall later,
      checkInterval (run later (step Unmount st)) = false /\
      pollRuns (run later (step Unmount st)) = pollRuns (step Unmount st)).
Proof.
  apply (C9_poll_timer_cancelled [Tick loaded; ClickRun] loaded). reflexivity.
Defined.

(** [isReady] is only ever set, never cleared. *)
Lemma isReady_latched (e : event) (st : state) :
  isReady st = true -> isReady (step e st) = true.
Proof. intros H. destruct e; crunch st. Qed.

(** The one event that sets [isReady] is the settle timeout, while it is
    pending and the component is mounted. *)
Lemma isReady_set_by_settle (e : event) (st : state) :
  isReady st = false -> isReady (step e st) = true ->
  (exists w, e = Settle w) /\ settleTimer st = true /\ mounted st = true.
Proof.
  intros H0 H1. destruct e; try (exfalso; revert H1; crunch st; fail).
  split; [now exists w|]. revert H1. crunch st.
Qed.

Lemma ready_after_settle (es : list event) :
  isReady (run es init) = true ->
  exists before w after,
    es = (before ++ Settle w :: after)%list /\
    editor (run before init) = Live /\
    settleTimer (run before init) = true /\
    isReady (run before init) = false.
Proof.
  induction es as [|e es IH] using rev_ind; [discriminate|].
  rewrite run_app. cbn. intros Hready.
  destruct (isReady (run es init)) eqn:Hprev.
  - destruct (IH eq_refl) as (before & w & after & -> & Hed & Htm & Hnr).
    exists before, w, (after ++ [e])%list.
    rewrite <- app_assoc. cbn. auto.
  - destruct (isReady_set_by_settle e _ Hprev Hready) as ([w ->] & Htm & Hmt).
    exists es, w, []. repeat split; auto.
    destruct (invariant_run es init invariant_init) as [_ Hinv]. auto.
Qed.

(** C10: while [isReady] is false the run button is disabled and the run
    handler, like a click, changes nothing; [isReady] is true only after a
    settle timeout that fell due while the editor was constructed and the
    timeout pending; and no event clears [isReady] once it is set. *)
Theorem C10_ready_gates_run :
  (forall st, isReady st = false ->
      run_disabled st = true /\ handleRunCode st = st /\ step ClickRun st = st) /\
  (forall es, isReady (run es init) = true ->
      exists before w after,
        es = (before ++ Settle w :: after)%list /\
        editor (run before init) = Live /\
        settleTimer (run before init) = true /\
        isReady (run before init) = false) /\
  (forall st e, isReady st = true -> isReady (step e st) = true).
Proof.
  split; [|split].
  - intros st H. unfold run_disabled, handleRunCode, step, run_disabled.
    rewrite H. cbn. rewrite andb_false_r. auto.
  - exact ready_after_settle.
  - intros st e. apply isReady_latched.
Qed.

(** No event makes the component put a request on the network. *)
Lemma requests_step (e : event) (st : state) : requests (step e st) = requests st.
Proof. destruct e; crunch st. Qed.

Lemma requests_run (es : list event) (st : state) : requests (run es st) = requests st.
Proof.
  revert st. induction es as [|e es IH]; intros st; [reflexivity|].
  cbn. fold (run es (step e st)). rewrite IH. apply requests_step.
Qed.

(** C1, as stated, fails: the interactive component, after a click on the
    run button and the timeout the click schedules, has sent no request. *)
Lemma C1_counterexample :
  isReady interactive = true /\
  ~ (exists r, In r (requests (run [ClickRun; RunTimeout] interactive)) /\
               url r = relay_endpoint /\ script r = code interactive).
Proof. split; [reflexivity|]. intros (r & [] & _). Qed.

(** C1, amended: a run triggered while the component is interactive sends
    nothing to the relay, now or later; the click runs the handler, which
    schedules a timeout holding the current buffer; the terminal instance,
    when there is one, gets the compiling notice at once and, when that
    timeout falls due, is cleared and shows the output the client computes
    itself from the buffer with [getSimulatedOutput]; when there is no
    instance nothing is written. *)
Theorem C1_run_renders_simulated_output (st : state) :
  isReady st = true -> main_view st = true ->
  (forall es, requests (run es st) = requests st) /\
  step ClickRun st = handleRunCode st /\
  terminalInstance (handleRunCode st)
  = option_map (fun ops => (ops ++ write_ops compiling_text true)%list)
      (terminalInstance st) /\
  runTimers (handleRunCode st) = (runTimers st ++ [code st])%list /\
  (forall s q,
      runTimers s = code st :: q ->
      terminalInstance (step RunTimeout s)
      = option_map (fun shown => (shown ++ write_ops (getSimulatedOutput (code st)) true)%list)
          (terminalInstance s) /\
      runTimers (step RunTimeout s) = q).
Proof.
  intros Hready Hview.
  split; [intros es; apply requests_run|].
  split; [unfold step, run_disabled; now rewrite Hview, Hready|].
  unfold handleRunCode, writeToTerminal. rewrite Hready. cbn.
  split; [destruct (terminalInstance st) eqn:Ht; cbn; rewrite ?Ht; reflexivity|].
  split; [destruct (terminalInstance st) eqn:Ht; cbn; rewrite ?Ht; reflexivity|].
  intros s q Hq. unfold step, runCallback, writeToTerminal.
  rewrite Hq. cbn. destruct (terminalInstance s) eqn:Hs; cbn; rewrite ?Hs; now split.
Qed.

Lemma C1_witness :
  (terminalInstance (handleRunCode interactive)
   = option_map (fun ops => (ops ++ write_ops compiling_text true)%list)
       (terminalInstance interactive) /\
   requests (run [ClickRun; RunTimeout] interactive) = requests interactive) /\
  (isReady interactive_without_terminal = true /\
   terminalInstance (handleRunCode interactive_without_terminal) = None).
Proof.
  split.
  - destruct (C1_run_renders_simulated_output interactive eq_refl eq_refl)
      as (Hreq & _ & Hterm & _).
    split; [exact Hterm | apply Hreq].
  - destruct (C1_run_renders_simulated_output interactive_without_terminal eq_refl eq_refl)
      as (_ & _ & Hterm & _).
    split; [reflexivity | exact Hterm].
Defined.

Lemma C10_witness :
  run_disabled init = true /\ handleRunCode init = init /\ step ClickRun init = init.
Proof. apply (proj1 C10_ready_gates_run init). reflexivity. Defined.

End AppSpec.

(* ===================================================================== *)
(** ** Properties of the relay *)
(* ===================================================================== *)

Module RelaySpec.
Import Relay.

Section Execute.

Variable env : environment.
Variable upstream : provider.
Variable body : object.

Let the_script := get "script" body.
Let the_language := get "language" body.

(** The validation guard: a falsy field ends the run with the 400 reply
    and nothing else. *)
Lemma execute_invalid :
  truthy the_script = false \/ truthy the_language = false ->
  execute env upstream body
  = ([Respond 400 (JObj [("error", JStr "Missing code or language in request.")])], inr tt).
Proof.
  unfold execute. fold the_script the_language.
  intros [H|H]; rewrite H; [reflexivity|].
  now rewrite orb_true_r.
Qed.

Hypothesis script_given : truthy the_script = true.
Hypothesis language_given : truthy the_language = true.

(** A language that cannot be written into the log line ends the run
    before the provider is called, with no answer. *)
Lemma execute_unprintable :
  to_string_throws the_language = true ->
  execute env upstream body
  = ([], inl "TypeError: Cannot convert object to primitive value").
Proof.
  intros H. unfold execute. fold the_script the_language.
  rewrite script_given, language_given. unfold template. now rewrite H.
Qed.

Hypothesis language_prints : to_string_throws the_language = false.

Let sent := executionPayload env the_script the_language.

(** Past the guard exactly one payload goes to the provider. *)
Lemma execute_calls_once :
  upstream_calls (trace (execute env upstream body)) = [sent].
Proof.
  unfold execute. fold the_script the_language.
  rewrite script_given, language_given. unfold template. rewrite language_prints.
  cbn. fold sent.
  destruct (upstream sent) as [e|r]; cbn; [reflexivity|].
  destruct (ok r); cbn.
  - destruct (res_json r); reflexivity.
  - destruct (res_text r); reflexivity.
Qed.

Lemma execute_not_ok (r : response) (errorText : string) :
  upstream sent = Reply r -> ok r = false -> res_text r = inr errorText ->
  responses (trace (execute env upstream body))
  = [(502, JObj [("error", JStr "Compiler Service Authentication or API Error.");
                 ("detail", JStr ("JDoodle returned status " ++ JS.of_nat (status r)));
                 ("jdoodleError", JStr errorText)])].
Proof.
  intros Hup Hok Htext. unfold execute. fold the_script the_language.
  rewrite script_given, language_given. unfold template. rewrite language_prints.
  cbn. fold sent.
  rewrite Hup. cbn. rewrite Hok. cbn. rewrite Htext. reflexivity.
Qed.

Lemma execute_ok (r : response) (result : value) :
  upstream sent = Reply r -> ok r = true -> res_json r = inr result ->
  responses (trace (execute env upstream body)) = [(200, result)].
Proof.
  intros Hup Hok Hjson. unfold execute. fold the_script the_language.
  rewrite script_given, language_given. unfold template. rewrite language_prints.
  cbn. fold sent.
  rewrite Hup. cbn. rewrite Hok. cbn. rewrite Hjson. reflexivity.
Qed.

(** Whatever is thrown inside the [try] ends in the same 500 reply. *)
Lemma execute_throws (e : exn) :
  upstream sent = NetworkError e \/
  (exists r, upstream sent = Reply r /\
             ((ok r = true /\ res_json r = inl e) \/ (ok r = false /\ res_text r = inl e))) ->
  responses (trace (execute env upstream body))
  = [(500, JObj [("error", JStr "Internal server error while executing code.")])].
Proof.
  intros H. unfold execute. fold the_script the_language.
  rewrite script_given, language_given. unfold template. rewrite language_prints.
  cbn. fold sent.
  destruct H as [Hup | (r & Hup & [[Hok Hr] | [Hok Hr]])];
    rewrite Hup; cbn; [reflexivity| |]; rewrite Hok; cbn; rewrite Hr; reflexivity.
Qed.

End Execute.

(** The provider is reached only past the guard and the two log lines, and
    with the payload [executionPayload] builds. *)
Lemma provider_reached
    (env : environment) (upstream : provider) (body : object) (p : payload) :
  In p (upstream_calls (trace (execute env upstream body))) ->
  truthy (get "script" body) = true /\
  truthy (get "language" body) = true /\
  to_string_throws (get "language" body) = false /\
  p = executionPayload env (get "script" body) (get "language" body).
Proof.
  destruct (truthy (get "script" body)) eqn:Hs.
  - destruct (truthy (get "language" body)) eqn:Hl.
    + destruct (to_string_throws (get "language" body)) eqn:Hp.
      * rewrite (execute_unprintable env upstream body Hs Hl Hp). intros [].
      * rewrite (execute_calls_once env upstream body Hs Hl Hp).
        intros [<-|[]]. auto.
    + rewrite execute_invalid by now right. intros [].
  - rewrite execute_invalid by now left. intros [].
Qed.

(** Every payload that reaches the provider is the one [executionPayload]
    builds from the configuration and the two request fields. *)
Lemma upstream_call_payload
    (env : environment) (upstream : provider) (body : object) (p : payload) :
  In p (upstream_calls (trace (execute env upstream body))) ->
  p = executionPayload env (get "script" body) (get "language" body).
Proof. intros H. now apply provider_reached in H. Qed.

Lemma absent_falsy (v : value) : absent v -> truthy v = false.
Proof. now intros [-> | ->]. Qed.

(** C2: when [script] or [language] is missing from the request body or is
    the empty string, the relay answers 400 with a body that holds an error
    string, and sends nothing to the provider. *)
Theorem C2_absent_field_rejected (env : environment) (upstream : provider) (body : object) :
  absent (get "script" body) \/ absent (get "language" body) ->
  responses (trace (execute env upstream body))
  = [(400, JObj [("error", JStr "Missing code or language in request.")])] /\
  upstream_calls (trace (execute env upstream body)) = [].
Proof.
  intros H. rewrite execute_invalid; [now split|].
  destruct H as [H|H]; [left|right]; now apply absent_falsy.
Qed.

Lemma C2_witness :
  (responses (trace (execute sample_env answers_42
                       [("script", JStr EmptyString); ("language", JStr "python")]))
   = [(400, JObj [("error", JStr "Missing code or language in request.")])] /\
   upstream_calls (trace (execute sample_env answers_42
                            [("script", JStr EmptyString); ("language", JStr "python")])) = []) /\
  (responses (trace (execute sample_env answers_42
                       [("script", JStr "print(1)"); ("language", JStr EmptyString)]))
   = [(400, JObj [("error", JStr "Missing code or language in request.")])] /\
   upstream_calls (trace (execute sample_env answers_42
                            [("script", JStr "print(1)"); ("language", JStr EmptyString)])) = []).
Proof.
  split.
  - apply (C2_absent_field_rejected sample_env answers_42
             [("script", JStr EmptyString); ("language", JStr "python")]).
    left. right. reflexivity.
  - apply (C2_absent_field_rejected sample_env answers_42
             [("script", JStr "print(1)"); ("language", JStr EmptyString)]).
    right. right. reflexivity.
Defined.

(** C3, as stated, fails: for a provider that answers 401 with the body
    [Unauthorized], the [detail] field of the 502 reply is the status
    sentence, and the provider's body does not occur in it. *)
Lemma C3_counterexample :
  exists fields,
    responses (trace (execute sample_env unauthorized sample_request)) = [(502, JObj fields)] /\
    get "detail" fields = JStr "JDoodle returned status 401" /\
    JS.includes "Unauthorized" "JDoodle returned status 401" = false.
Proof. eexists. repeat split. Qed.

(** C3, amended: when the provider, called with the payload [p] in the
    run, answers with a status outside 200..299 and its body can be read, the relay answers 502 with a body whose
    [jdoodleError] field is that body, unchanged, and whose [detail] field
    names the provider's status. *)
Theorem C3_upstream_error_relayed
    (env : environment) (upstream : provider) (body : object)
    (p : payload) (r : response) (errorText : string) :
  In p (upstream_calls (trace (execute env upstream body))) ->
  upstream p = Reply r ->
  ok r = false ->
  res_text r = inr errorText ->
  exists fields,
    responses (trace (execute env upstream body)) = [(502, JObj fields)] /\
    get "jdoodleError" fields = JStr errorText /\
    get "detail" fields = JStr ("JDoodle returned status " ++ JS.of_nat (status r)) /\
    get "error" fields = JStr "Compiler Service Authentication or API Error.".
Proof.
  intros Hcall Hup Hok Htext.
  apply provider_reached in Hcall as (Hs & Hl & Hp & ->). eexists.
  split; [apply (execute_not_ok env upstream body Hs Hl Hp r errorText Hup Hok Htext)|].
  repeat split.
Qed.

Lemma C3_witness :
  exists fields,
    responses (trace (execute sample_env unauthorized sample_request)) = [(502, JObj fields)] /\
    get "jdoodleError" fields = JStr "Unauthorized" /\
    get "detail" fields = JStr "JDoodle returned status 401" /\
    get "error" fields = JStr "Compiler Service Authentication or API Error.".
Proof.
  exact (C3_upstream_error_relayed sample_env unauthorized sample_request
           sample_payload _ "Unauthorized" (or_introl eq_refl) eq_refl eq_refl eq_refl).
Defined.

(** C4: when the provider, called with the payload [p] in the run, answers
    with a status in 200..299 and a body that parses as JSON, the relay
    answers 200 with the parsed body as it is. *)
Theorem C4_success_passed_through
    (env : environment) (upstream : provider) (body : object)
    (p : payload) (r : response) (result : value) :
  In p (upstream_calls (trace (execute env upstream body))) ->
  upstream p = Reply r ->
  ok r = true ->
  res_json r = inr result ->
  responses (trace (execute env upstream body)) = [(200, result)].
Proof.
  intros Hcall Hup Hok Hjson.
  apply provider_reached in Hcall as (Hs & Hl & Hp & ->).
  exact (execute_ok env upstream body Hs Hl Hp r result Hup Hok Hjson).
Qed.

Lemma C4_witness :
  responses (trace (execute sample_env answers_42 sample_request))
  = [(200, JObj [("output", JStr "42")])].
Proof.
  exact (C4_success_passed_through sample_env answers_42 sample_request
           sample_payload _ _ (or_introl eq_refl) eq_refl eq_refl eq_refl).
Defined.

(** C5: when the call to the provider, made with the payload [p] in the
    run, fails below HTTP, or a success reply has a body that does not parse
    as JSON, the relay answers 500 with one
    fixed body, the same for every failure, which therefore carries nothing
    of the failure. *)
Theorem C5_transport_failure_generic
    (env : environment) (upstream : provider) (body : object) (p : payload) (e : exn) :
  In p (upstream_calls (trace (execute env upstream body))) ->
  transport_failure (upstream p) e ->
  responses (trace (execute env upstream body))
  = [(500, JObj [("error", JStr "Internal server error while executing code.")])].
Proof.
  intros Hcall Hfail.
  apply provider_reached in Hcall as (Hs & Hl & Hp & ->).
  apply (execute_throws env upstream body Hs Hl Hp e).
  destruct Hfail as [Hup | (r & Hup & Hok & Hjson)]; [now left|].
  right. exists r. split; [exact Hup|]. left. now split.
Qed.

Lemma C5_witness :
  responses (trace (execute sample_env unreachable sample_request))
  = [(500, JObj [("error", JStr "Internal server error while executing code.")])].
Proof.
  apply (C5_transport_failure_generic sample_env unreachable sample_request
           sample_payload "fetch failed").
  - left. reflexivity.
  - left. reflexivity.
Defined.

(** The reply depends on the configuration only through what the provider
    answers. *)
Lemma reply_determined_by_provider
    (env1 env2 : environment) (up1 up2 : provider) (body : object) :
  up1 (executionPayload env1 (get "script" body) (get "language" body))
  = up2 (executionPayload env2 (get "script" body) (get "language" body)) ->
  responses (trace (execute env1 up1 body)) = responses (trace (execute env2 up2 body)).
Proof.
  intros Hsame.
  destruct (truthy (get "script" body) && truthy (get "language" body)) eqn:Hvalid.
  - apply andb_true_iff in Hvalid as [Hs Hl].
    unfold execute. rewrite Hs, Hl. unfold template.
    destruct (to_string_throws (get "language" body)); [reflexivity|].
    cbn -[executionPayload]. rewrite Hsame.
    destruct (up2 _) as [e|r]; cbn; [reflexivity|].
    destruct (ok r); cbn; [destruct (res_json r) | destruct (res_text r)]; reflexivity.
  - apply andb_false_iff in Hvalid.
    now rewrite !execute_invalid.
Qed.

(** C6, as stated, fails in its last part: with a provider that names the
    secret it was given in its error body, the 502 reply to the client
    carries the configured secret. *)
Lemma C6_counterexample :
  exists code body,
    responses (trace (execute sample_env echoing sample_request)) = [(code, body)] /\
    CLIENT_SECRET sample_env = Some "s3cr3t-91c4" /\
    mentions "s3cr3t-91c4" body = true.
Proof. do 2 eexists. repeat split. Qed.

(** C6, amended: in every payload sent to the provider, for any two calls
    and whatever the requests hold, [clientId] and [clientSecret] are the
    two configured values, [versionIndex] is [0] and [stdin] is empty; and
    the relay itself puts no credential into a reply: two runs on the same
    request whose providers answer alike reply alike under any two
    configurations, so a credential reaches the client only inside what the
    provider answered. *)
Theorem C6_credentials_from_configuration_only :
  (forall (env : environment) (up1 up2 : provider) (body1 body2 : object) (p1 p2 : payload),
      In p1 (upstream_calls (trace (execute env up1 body1))) ->
      In p2 (upstream_calls (trace (execute env up2 body2))) ->
      (clientId p1 = CLIENT_ID env /\ clientSecret p1 = CLIENT_SECRET env /\
       versionIndex p1 = "0" /\ stdin p1 = EmptyString) /\
      (clientId p2 = clientId p1 /\ clientSecret p2 = clientSecret p1 /\
       versionIndex p2 = versionIndex p1 /\ stdin p2 = stdin p1)) /\
  (forall (env1 env2 : environment) (up1 up2 : provider) (body : object),
      up1 (executionPayload env1 (get "script" body) (get "language" body))
      = up2 (executionPayload env2 (get "script" body) (get "language" body)) ->
      responses (trace (execute env1 up1 body)) = responses (trace (execute env2 up2 body))).
Proof.
  split.
  - intros env up1 up2 body1 body2 p1 p2 H1 H2.
    apply upstream_call_payload in H1, H2. subst p1 p2. cbn. repeat split.
  - exact reply_determined_by_provider.
Qed.

Lemma C6_witness :
  (let p1 := executionPayload sample_env (JStr "print(1)") (JStr "python3") in
   let p2 := executionPayload sample_env (JStr "x = 2") (JStr "java") in
   clientId p2 = clientId p1 /\ clientSecret p2 = clientSecret p1 /\
   versionIndex p2 = versionIndex p1 /\ stdin p2 = stdin p1) /\
  responses (trace (execute sample_env unauthorized sample_request))
  = responses (trace (execute other_env unauthorized sample_request)).
Proof.
  split.
  - exact (proj2 (proj1 C6_credentials_from_configuration_only
                    sample_env answers_42 unauthorized sample_request
                    [("script", JStr "x = 2"); ("language", JStr "java")] _ _
                    (or_introl eq_refl) (or_introl eq_refl))).
  - exact (proj2 C6_credentials_from_configuration_only
             sample_env other_env unauthorized unauthorized sample_request eq_refl).
Defined.

End RelaySpec.

(* ===================================================================== *)
(** ** Further properties of the relay *)
(* ===================================================================== *)

Module RelayExtra.
Import Relay.

(** Every path through the handler, one goal each. *)
Ltac execute_paths env upstream body :=
  unfold execute;
  destruct (truthy (get "script" body)) eqn:Hscript;
  destruct (truthy (get "language" body)) eqn:Hlanguage;
  cbn -[executionPayload template];
  try (unfold template;
       destruct (to_string_throws (get "language" body)) eqn:Hprints;
       cbn -[executionPayload];
       try (fold (sent_by env body);
            destruct (upstream (sent_by env body)) eqn:Hanswer; cbn;
            repeat match goal with
              | |- context [ok ?r] => destruct (ok r) eqn:Hok; cbn
              | |- context [res_json ?r] => destruct (res_json r) eqn:Hbody; cbn
              | |- context [res_text ?r] => destruct (res_text r) eqn:Hbody; cbn
              end)).

(** X1: a request is answered exactly once, with status 200, 400, 500 or
    502, and the handler returns, unless [req.body] is [undefined] or both
    fields are truthy and the language does not convert to a string: then
    the handler throws before its [try], having logged nothing, called
    nobody and answered nothing. *)
Theorem request_answered_once_or_thrown
    (env : environment) (upstream : provider) (req_body : option object) :
  if leaves_unanswered req_body
  then trace (handler env upstream req_body) = [] /\
       exists e, snd (handler env upstream req_body) = inl e
  else (exists code reply,
           responses (trace (handler env upstream req_body)) = [(code, reply)] /\
           In code [200; 400; 500; 502]) /\
       snd (handler env upstream req_body) = inr tt.
Proof.
  destruct req_body as [body|]; cbn [leaves_unanswered handler];
    [|split; [reflexivity | eexists; reflexivity]].
  execute_paths env upstream body; cbn;
    first [ split; [reflexivity | eexists; reflexivity]
          | split; [do 2 eexists; split; [reflexivity | cbn; tauto] | reflexivity] ].
Qed.

(** X2: the provider is called exactly when both fields are truthy and the
    language converts to a string; then once, with no second attempt, at
    the fixed address and with the payload [executionPayload] builds. *)
Theorem provider_called_once_iff_reached
    (env : environment) (upstream : provider) (body : object) :
  fetches (trace (execute env upstream body))
  = (if truthy (get "script" body) && truthy (get "language" body)
        && negb (to_string_throws (get "language" body))
     then [(JD_API_URL, sent_by env body)] else []).
Proof. execute_paths env upstream body; reflexivity. Qed.

(** X3: the answer is 400 exactly when [script] or [language] is falsy:
    missing, [null], [false], the number zero or the empty string. *)
Theorem rejected_iff_falsy
    (env : environment) (upstream : provider) (body : object) :
  (exists reply, responses (trace (execute env upstream body)) = [(400, reply)]) <->
  truthy (get "script" body) = false \/ truthy (get "language" body) = false.
Proof.
  execute_paths env upstream body; split;
    try (intros [reply Hr]; discriminate Hr);
    try (intros [H|H]; discriminate H);
    try (intros _; eexists; reflexivity);
    try (intros _; auto).
Qed.

(** X4: the status of the answer tells what happened: 200 only for a
    success reply whose body parsed, which is then the answer; 502 only for
    a reply outside 200..299 whose body was read; 500 only when the call or
    the reading of the body failed; 400 only for a falsy field. *)
Theorem status_tells_outcome
    (env : environment) (upstream : provider) (body : object)
    (code : nat) (reply : value) :
  responses (trace (execute env upstream body)) = [(code, reply)] ->
  (code = 200 ->
     exists r, upstream (sent_by env body) = Reply r /\ ok r = true /\
               res_json r = inr reply) /\
  (code = 502 ->
     exists r errorText, upstream (sent_by env body) = Reply r /\ ok r = false /\
                         res_text r = inr errorText /\
                         get "jdoodleError" (match reply with JObj f => f | _ => [] end)
                         = JStr errorText) /\
  (code = 500 ->
     exists e, upstream (sent_by env body) = NetworkError e \/
               exists r, upstream (sent_by env body) = Reply r /\
                         (if ok r then res_json r = inl e else res_text r = inl e)) /\
  (code = 400 ->
     truthy (get "script" body) = false \/ truthy (get "language" body) = false).
Proof.
  execute_paths env upstream body; try discriminate; intros [= <- <-];
    (split; [|split; [|split]]); intros Hcode; try discriminate Hcode; auto.
  all: first
    [ eexists; left; reflexivity
    | eexists; right; eexists; split; [reflexivity|]; rewrite Hok; exact Hbody
    | eexists; repeat split; eassumption
    | do 2 eexists; repeat split; eassumption ].
Qed.

Lemma status_tells_outcome_witness :
  exists r, answers_42 (sent_by sample_env sample_request) = Reply r /\ ok r = true /\
            res_json r = inr (JObj [("output", JStr "42")]).
Proof.
  exact (proj1 (status_tells_outcome sample_env answers_42 sample_request 200
                  (JObj [("output", JStr "42")]) eq_refl) eq_refl).
Defined.

(** X5: when the provider, once called, answers outside 200..299 and
    reading its body fails, the answer is the generic 500, not 502. *)
Theorem unreadable_error_body_gives_500
    (env : environment) (upstream : provider) (body : object)
    (p : payload) (r : response) (e : exn) :
  In p (upstream_calls (trace (execute env upstream body))) ->
  upstream p = Reply r ->
  ok r = false ->
  res_text r = inl e ->
  responses (trace (execute env upstream body))
  = [(500, JObj [("error", JStr "Internal server error while executing code.")])].
Proof.
  intros Hcall Hup Hnot Htext.
  apply RelaySpec.provider_reached in Hcall as (Hs & Hl & Hp & ->).
  fold (sent_by env body) in Hup.
  execute_paths env upstream body; congruence.
Qed.

Lemma unreadable_error_body_witness :
  responses (trace (execute sample_env broken_body sample_request))
  = [(500, JObj [("error", JStr "Internal server error while executing code.")])].
Proof.
  exact (unreadable_error_body_gives_500 sample_env broken_body sample_request
           sample_payload _ "terminated" (or_introl eq_refl) eq_refl eq_refl eq_refl).
Defined.

(** X6: what the relay logs and what it answers depend on the configured
    credentials only through the provider: two runs on one request, under
    any two configurations, whose providers answer alike leave the same
    console lines and the same answer. *)
Theorem console_and_answer_free_of_configuration
    (env1 env2 : environment) (up1 up2 : provider) (body : object) :
  up1 (sent_by env1 body) = up2 (sent_by env2 body) ->
  visible (trace (execute env1 up1 body)) = visible (trace (execute env2 up2 body)).
Proof.
  intros Hsame. unfold execute.
  destruct (truthy (get "script" body)); destruct (truthy (get "language" body));
    cbn -[executionPayload template]; try reflexivity.
  unfold template. destruct (to_string_throws (get "language" body)); [reflexivity|].
  cbn -[executionPayload].
  fold (sent_by env1 body) (sent_by env2 body). rewrite Hsame.
  destruct (up2 (sent_by env2 body)) as [e|r]; cbn; [reflexivity|].
  destruct (ok r); cbn; [destruct (res_json r) | destruct (res_text r)]; reflexivity.
Qed.

Lemma console_and_answer_witness :
  visible (trace (execute sample_env unauthorized sample_request))
  = visible (trace (execute other_env unauthorized sample_request)).
Proof.
  exact (console_and_answer_free_of_configuration
           sample_env other_env unauthorized unauthorized sample_request eq_refl).
Defined.

(** The request [{"script": "print(1)", "language": {"toString": 1}}]
    passes the guard and is left without an answer. *)
Example unprintable_request_unanswered :
  leaves_unanswered (Some unprintable_request) = true /\
  handler sample_env answers_42 (Some unprintable_request)
  = ([], inl "TypeError: Cannot convert object to primitive value").
Proof. split; reflexivity. Qed.

End RelayExtra.

(* ===================================================================== *)
(** ** Further properties of the client *)
(* ===================================================================== *)

Module AppExtra.
Import App.

(** *** Strings *)

Lemma append_empty_r (s : string) : s ++ EmptyString = s.
Proof. induction s; cbn; [reflexivity | now f_equal]. Qed.

Lemma append_assoc (a b c : string) : (a ++ b) ++ c = a ++ b ++ c.
Proof. induction a; cbn; [reflexivity | now f_equal]. Qed.

Lemma length_append (a b : string) :
  String.length (a ++ b) = String.length a + String.length b.
Proof. induction a; cbn; [reflexivity | now f_equal]. Qed.

Lemma substring_head (a b : string) : String.substring 0 (String.length a) (a ++ b) = a.
Proof.
  induction a as [|c a IH]; cbn; [now destruct b | now f_equal].
Qed.

Lemma substring_tail (a b : string) :
  String.substring (String.length a) (String.length b) (a ++ b) = b.
Proof.
  induction a as [|c a IH]; cbn; [apply AppSpec.substring_all | exact IH].
Qed.

Lemma every_append (p : ascii -> bool) (a b : string) :
  every p (a ++ b) = every p a && every p b.
Proof.
  induction a as [|c a IH]; cbn; [reflexivity|]. now rewrite IH, andb_assoc.
Qed.

Lemma every_substring (p : ascii -> bool) (n m : nat) (s : string) :
  every p s = true -> every p (String.substring n m s) = true.
Proof.
  revert n m. induction s as [|c s IH]; intros n m H.
  - destruct n, m; reflexivity.
  - cbn in H. apply andb_true_iff in H as [Hc Hs].
    destruct n as [|n]; [destruct m as [|m]; cbn; [reflexivity|] | cbn; now apply IH].
    rewrite Hc. now apply IH.
Qed.

Lemma every_trimStart (p : ascii -> bool) (s : string) :
  every p s = true -> every p (JS.trimStart s) = true.
Proof.
  induction s as [|c s IH]; cbn; [reflexivity|]. intros H.
  destruct (JS.is_whitespace c); [|exact H].
  apply andb_true_iff in H as [_ Hs]. now apply IH.
Qed.

Lemma every_trimEnd (p : ascii -> bool) (s : string) :
  every p s = true -> every p (JS.trimEnd s) = true.
Proof.
  induction s as [|c s IH]; cbn; [reflexivity|]. intros H.
  apply andb_true_iff in H as [Hc Hs]. specialize (IH Hs).
  destruct (JS.trimEnd s) as [|d t].
  - destruct (JS.is_whitespace c); cbn; [reflexivity | now rewrite Hc].
  - change (every p (String c (String d t)) = true). cbn [every]. cbn [every] in IH.
    now rewrite Hc, IH.
Qed.

Lemma every_trim (p : ascii -> bool) (s : string) :
  every p s = true -> every p (JS.trim s) = true.
Proof. intros H. unfold JS.trim. now apply every_trimEnd, every_trimStart. Qed.

(** [trimEnd] keeps everything up to a character that is not white space. *)
Lemma trimEnd_keeps (pre : string) (c : ascii) (rest : string) :
  JS.is_whitespace c = false ->
  exists kept, JS.trimEnd (pre ++ String c rest) = pre ++ String c kept.
Proof.
  intros Hc. induction pre as [|a pre (kept & IH)].
  - cbn. destruct (JS.trimEnd rest) as [|d t]; [exists EmptyString | exists (String d t)];
      [now rewrite Hc | reflexivity].
  - exists kept. cbn [append JS.trimEnd]. rewrite IH.
    destruct pre; reflexivity.
Qed.

(** [trimEnd] only removes from the end. *)
Lemma trimEnd_prefix (s : string) : exists tail, s = JS.trimEnd s ++ tail.
Proof.
  induction s as [|c s (tail & IH)]; [now exists EmptyString|].
  cbn [JS.trimEnd]. destruct (JS.trimEnd s) as [|d t] eqn:Ht.
  - destruct (JS.is_whitespace c).
    + now exists (String c s).
    + exists tail. cbn in *. now f_equal.
  - exists tail. cbn in *. now f_equal.
Qed.

Lemma trimEnd_ends_clean (s : string) (c : ascii) :
  JS.is_whitespace c = false -> JS.trimEnd (s ++ JS.chr c) = s ++ JS.chr c.
Proof.
  intros Hc. destruct (trimEnd_keeps s c EmptyString Hc) as (kept & Hk).
  destruct (trimEnd_prefix (s ++ JS.chr c)) as (tail & Ht).
  unfold JS.chr in *. rewrite Hk in Ht |- *.
  assert (Hlen : String.length (s ++ String c EmptyString)
                 = String.length ((s ++ String c kept) ++ tail)) by now rewrite <- Ht.
  rewrite !length_append in Hlen. cbn in Hlen.
  destruct kept; [reflexivity | cbn in Hlen; lia].
Qed.

Lemma prefix_iff (p s : string) : prefix p s = true <-> exists r, s = p ++ r.
Proof.
  split.
  - revert s. induction p as [|c p IH]; intros s H; [now exists s|].
    destruct s as [|d s]; [discriminate|]. cbn [prefix] in H.
    destruct (ascii_dec c d) as [<-|]; [|discriminate].
    destruct (IH s H) as (r & ->). now exists r.
  - intros (r & ->). apply AppSpec.prefix_app.
Qed.

Lemma endsWith_app (a p : string) : JS.endsWith p (a ++ p) = true.
Proof.
  unfold JS.endsWith. rewrite length_append.
  replace (String.length a + String.length p - String.length p) with (String.length a) by lia.
  rewrite substring_tail, String.eqb_refl, andb_true_r.
  apply Nat.leb_le. lia.
Qed.

Lemma split_nonempty (c : ascii) (s : string) : JS.split c s <> [].
Proof.
  destruct s as [|d s]; cbn; [discriminate|].
  destruct (d =? c)%char; [discriminate|]. destruct (JS.split c s); discriminate.
Qed.

Lemma split_no_separator (c : ascii) (s : string) :
  every (fun d => negb (d =? c)%char) s = true -> JS.split c s = [s].
Proof.
  induction s as [|d s IH]; cbn; [reflexivity|]. intros H.
  apply andb_true_iff in H as [Hd Hs]. apply negb_true_iff in Hd.
  now rewrite Hd, (IH Hs).
Qed.

Lemma split_at_separator (c : ascii) (w rest : string) :
  every (fun d => negb (d =? c)%char) w = true ->
  JS.split c (w ++ String c rest) = w :: JS.split c rest.
Proof.
  induction w as [|d w IH]; cbn [append every]; intros H.
  - cbn. now rewrite Ascii.eqb_refl.
  - apply andb_true_iff in H as [Hd Hw]. apply negb_true_iff in Hd.
    cbn [JS.split]. now rewrite Hd, (IH Hw).
Qed.

Lemma split_parts_free (c : ascii) (s : string) :
  Forall (fun w => every (fun d => negb (d =? c)%char) w = true) (JS.split c s).
Proof.
  induction s as [|d s IH]; cbn; [now repeat constructor|].
  destruct (d =? c)%char eqn:Hd; [now constructor|].
  destruct (JS.split c s) as [|w ws]; [repeat constructor; cbn; now rewrite Hd|].
  inversion IH as [|? ? Hw Hws]; subst. constructor; [|exact Hws].
  cbn. now rewrite Hd, Hw.
Qed.

(** Splitting what [join] put together gives the parts back, when no part
    holds the separator. *)
Lemma split_join (c : ascii) (parts : list string) :
  parts <> [] ->
  Forall (fun w => every (fun d => negb (d =? c)%char) w = true) parts ->
  JS.split c (JS.join (JS.chr c) parts) = parts.
Proof.
  unfold JS.join. induction parts as [|w parts IH]; [congruence|].
  intros _ Hfree. inversion Hfree as [|? ? Hw Hparts]; subst.
  destruct parts as [|w' parts].
  - cbn. now apply split_no_separator.
  - change (String.concat (JS.chr c) (w :: w' :: parts))
      with (w ++ String c (String.concat (JS.chr c) (w' :: parts))).
    rewrite (split_at_separator c w _ Hw). f_equal. now apply IH.
Qed.

(** The opposite direction: joining the parts of a split gives the string. *)
Lemma join_split (c : ascii) (s : string) : JS.join (JS.chr c) (JS.split c s) = s.
Proof.
  unfold JS.join. induction s as [|d s IH]; [reflexivity|].
  cbn [JS.split]. destruct (d =? c)%char eqn:Hd.
  - apply Ascii.eqb_eq in Hd as ->.
    pose proof (split_nonempty c s) as Hne.
    destruct (JS.split c s) as [|w ws]; [congruence|].
    change (String c (String.concat (JS.chr c) (w :: ws)) = String c s). now f_equal.
  - destruct (JS.split c s) as [|w ws] eqn:Hs; [now destruct (split_nonempty c s)|].
    destruct ws as [|w' ws]; cbn in *; now f_equal.
Qed.

(** *** The simulated output renderer *)

Lemma print_regex_group_within (p : ascii -> bool) (line g : string) :
  every p line = true -> print_regex line = Some g -> every p g = true.
Proof.
  intros Hline Hg.
  apply AppSpec.print_regex_leftmost in Hg as (pre & suf & -> & Hm & _).
  destruct Hm as [ws arg rest _ _ _].
  rewrite !every_append in Hline.
  repeat (apply andb_true_iff in Hline as [? Hline] || apply andb_true_iff in Hline as [Hline ?]).
  assumption.
Qed.

Lemma render_print_free (line : string) :
  no_line_feed line = true -> no_line_feed (render_print line) = true.
Proof.
  unfold no_line_feed, render_print. intros Hline.
  destruct (print_regex line) as [g|] eqn:Hg; [|reflexivity].
  pose proof (every_trim _ _ (print_regex_group_within _ _ _ Hline Hg)) as Hcontent.
  destruct (_ || _); [|exact Hcontent].
  unfold JS.substring. now apply every_substring.
Qed.

Lemma printStatements_free (buffer : string) :
  Forall (fun w => no_line_feed w = true) (printStatements buffer).
Proof.
  unfold printStatements. apply Forall_map.
  pose proof (split_parts_free JS.LF buffer) as Hparts.
  induction Hparts as [|w ws Hw _ IH]; cbn; [constructor|].
  destruct (is_print_line w); [constructor; [now apply render_print_free | exact IH] | exact IH].
Qed.

(** X7: when the buffer has a print line, the output read line by line is
    the header followed by one entry per print line, in the order of the
    buffer: no entry is lost, split or merged. *)
Theorem output_lists_one_line_per_print (buffer : string) :
  printStatements buffer <> [] ->
  JS.split JS.LF (getSimulatedOutput buffer) = parsed_header :: printStatements buffer /\
  List.length (printStatements buffer)
  = List.length (filter is_print_line (JS.split JS.LF buffer)).
Proof.
  intros Hsome. split; [|unfold printStatements; apply length_map].
  unfold getSimulatedOutput.
  destruct (printStatements buffer) as [|entry entries] eqn:Hps; [congruence|].
  cbn [List.length Nat.ltb Nat.leb]. apply split_join; [discriminate|].
  constructor; [reflexivity|]. rewrite <- Hps. apply printStatements_free.
Qed.

Lemma output_lists_witness :
  JS.split JS.LF (getSimulatedOutput two_prints) = parsed_header :: printStatements two_prints /\
  List.length (printStatements two_prints)
  = List.length (filter is_print_line (JS.split JS.LF two_prints)).
Proof. apply (output_lists_one_line_per_print two_prints). discriminate. Defined.

Lemma indented_print_is_print_line (ws rest : string) :
  every JS.is_whitespace ws = true -> is_print_line (ws ++ "print(" ++ rest) = true.
Proof.
  intros Hws. rewrite AppSpec.is_print_line_prefix. unfold JS.startsWith, JS.trim.
  rewrite (AppSpec.trimStart_app _ _ Hws). cbn [append JS.trimStart].
  replace (JS.is_whitespace "p") with false by reflexivity.
  destruct (trimEnd_keeps "print" "(" rest eq_refl) as (kept & Hk).
  cbn [append] in Hk. rewrite Hk. apply prefix_iff. now exists kept.
Qed.

(** X8: a line is taken for a print statement exactly when it is white
    space followed by [print(]: indentation does not matter, what follows
    does not matter, and a line that starts with [#] or with any other text
    is left out. *)
Theorem print_line_iff_indented_print (line : string) :
  is_print_line line = true <->
  exists ws rest, every JS.is_whitespace ws = true /\ line = ws ++ "print(" ++ rest.
Proof.
  split.
  - rewrite AppSpec.is_print_line_prefix. unfold JS.startsWith, JS.trim.
    intros H. apply prefix_iff in H as (kept & Hkept).
    destruct (AppSpec.trimStart_split line) as (ws & Hline & Hws).
    destruct (trimEnd_prefix (JS.trimStart line)) as (tail & Htail).
    exists ws, (kept ++ tail). split; [exact Hws|].
    rewrite Hline at 1. f_equal. rewrite Htail at 1. rewrite Hkept.
    now rewrite append_assoc.
  - intros (ws & rest & Hws & ->). now apply indented_print_is_print_line.
Qed.

Lemma quoted_argument_rendered (q : ascii) (t : string) :
  q = JS.DQUOTE \/ q = "'"%char ->
  no_rparen t = true ->
  render_print ("print(" ++ JS.chr q ++ t ++ JS.chr q ++ ")") = t.
Proof.
  intros Hq Ht. set (arg := JS.chr q ++ t ++ JS.chr q).
  assert (Hq_ws : JS.is_whitespace q = false) by (destruct Hq as [-> | ->]; reflexivity).
  assert (Hq_rp : negb (q =? ")")%char = true) by (destruct Hq as [-> | ->]; reflexivity).
  assert (Hhere : print_regex_here ("print(" ++ JS.chr q ++ t ++ JS.chr q ++ ")") = Some arg).
  { apply AppSpec.print_regex_here_spec.
    replace ("print(" ++ JS.chr q ++ t ++ JS.chr q ++ ")")
      with ("print" ++ EmptyString ++ "(" ++ arg ++ ")" ++ EmptyString)
      by (unfold arg; cbn; now rewrite !append_assoc).
    constructor; [reflexivity | discriminate |].
    unfold arg, no_rparen in *. rewrite !every_append. cbn. now rewrite Hq_rp, Ht. }
  unfold render_print. rewrite AppSpec.print_regex_unfold, Hhere.
  assert (Htrim : JS.trim arg = arg).
  { unfold JS.trim, arg. cbn [JS.chr append JS.trimStart]. rewrite Hq_ws.
    exact (trimEnd_ends_clean (String q t) q Hq_ws). }
  cbv zeta. rewrite Htrim.
  assert (Hstart : JS.startsWith (JS.chr q) arg = true) by apply AppSpec.prefix_app.
  assert (Hend : JS.endsWith (JS.chr q) arg = true).
  { unfold arg. rewrite <- append_assoc. apply endsWith_app. }
  assert (Hcond : (JS.startsWith (JS.chr JS.DQUOTE) arg && JS.endsWith (JS.chr JS.DQUOTE) arg)
                  || (JS.startsWith "'" arg && JS.endsWith "'" arg) = true).
  { destruct Hq as [-> | ->].
    - change (JS.chr JS.DQUOTE) with (JS.chr JS.DQUOTE) in *. now rewrite Hstart, Hend.
    - change "'" with (JS.chr "'") at 1 2. rewrite Hstart, Hend. apply orb_true_r. }
  rewrite Hcond. unfold JS.substring.
  assert (Hlen : String.length arg - 1 = S (String.length t)).
  { unfold arg. cbn [JS.chr append String.length]. rewrite length_append. cbn. lia. }
  rewrite Hlen. cbn [Nat.min Nat.max Nat.sub]. rewrite Nat.sub_0_r.
  unfold arg. cbn [JS.chr append String.substring]. apply substring_head.
Qed.

(** X9: a one-line buffer that prints a string literal, in double or in
    single quotes, with no closing parenthesis and no line feed in it, is
    rendered as the header and the text of the literal, without its
    quotes. *)
Theorem printed_literal_is_shown (q : ascii) (t : string) :
  q = JS.DQUOTE \/ q = "'"%char ->
  no_rparen t = true ->
  no_line_feed t = true ->
  getSimulatedOutput ("print(" ++ JS.chr q ++ t ++ JS.chr q ++ ")")
  = parsed_header ++ JS.chr JS.LF ++ t.
Proof.
  intros Hq Hrp Hlf. set (line := "print(" ++ JS.chr q ++ t ++ JS.chr q ++ ")").
  assert (Hone : JS.split JS.LF line = [line]).
  { apply split_no_separator. unfold line, no_line_feed in *.
    rewrite !every_append, Hlf. destruct Hq as [-> | ->]; reflexivity. }
  assert (Hprint : is_print_line line = true).
  { exact (indented_print_is_print_line EmptyString _ eq_refl). }
  unfold getSimulatedOutput, printStatements. rewrite Hone. cbn [filter]. rewrite Hprint.
  cbn [map List.length Nat.ltb Nat.leb JS.join String.concat].
  unfold line. now rewrite (quoted_argument_rendered q t Hq Hrp).
Qed.

Lemma printed_literal_witness :
  getSimulatedOutput ("print(" ++ JS.chr JS.DQUOTE ++ "Hello, NEUDev!" ++ JS.chr JS.DQUOTE ++ ")")
  = parsed_header ++ JS.chr JS.LF ++ "Hello, NEUDev!".
Proof.
  exact (printed_literal_is_shown JS.DQUOTE "Hello, NEUDev!" (or_introl eq_refl) eq_refl eq_refl).
Defined.

(** *** The terminal *)

Lemma written_app (a b : list term_op) : written (a ++ b) = written a ++ written b.
Proof.
  induction a as [|op a IH]; [reflexivity|].
  destruct op; cbn; rewrite IH; try reflexivity. now rewrite append_assoc.
Qed.

Lemma written_lines (text : string) :
  written (map (fun line => TWrite (line ++ CRLF)) (JS.split JS.LF text))
  = crlf_newlines text ++ CRLF.
Proof.
  induction text as [|c text IH]; [reflexivity|].
  cbn [JS.split crlf_newlines]. destruct (c =? JS.LF)%char.
  - cbn [map written]. rewrite IH. cbn. reflexivity.
  - pose proof (split_nonempty JS.LF text) as Hne.
    destruct (JS.split JS.LF text) as [|w ws]; [congruence|].
    cbn [map written] in *. cbn [append]. f_equal. exact IH.
Qed.

Lemma no_clear_in_lines (lines : list string) :
  ~ In TClear (map (fun line => TWrite (line ++ CRLF)) lines).
Proof. induction lines as [|l lines IH]; cbn; [tauto|]. intros [H|H]; [discriminate | tauto]. Qed.

(** X10: [writeToTerminal] does nothing while there is no terminal;
    otherwise it adds to the calls made so far, writes the text with every
    line feed turned into carriage return and line feed and one more at the
    end, after the two banner lines when [clear] is set, and clears the
    terminal exactly when [clear] is set. *)
Theorem terminal_write_converts_newlines (text : string) (clear : bool) (st : state) :
  (terminalInstance st = None -> writeToTerminal text clear st = st) /\
  (forall ops, terminalInstance st = Some ops ->
     exists new,
       terminalInstance (writeToTerminal text clear st) = Some (ops ++ new)%list /\
       written new
       = (if clear then ready_banner ++ rule_line else EmptyString)
         ++ crlf_newlines text ++ CRLF /\
       (In TClear new <-> clear = true)).
Proof.
  unfold writeToTerminal. split.
  - now intros ->.
  - intros ops ->. exists (write_ops text clear). split; [reflexivity|].
    unfold write_ops. rewrite written_app, written_lines. split.
    + destruct clear; cbn [written]; [|reflexivity]. now rewrite append_empty_r.
    + rewrite in_app_iff. destruct clear; cbn.
      * tauto.
      * split; [|discriminate]. intros [[]|H]. now apply no_clear_in_lines in H.
Qed.

(** *** The component *)

Lemma coherent_step (e : event) (st : state) :
  coherent st = true -> coherent (step e st) = true.
Proof.
  destruct st as [m c r l ci pr ed stt ti rl rt rq].
  destruct m, r, l, ci, ed, stt, ti as [ops|], rl;
    intros H; try discriminate H; clear H;
    destruct e as [w|w|content| | | |];
    try destruct w as [[] [] [] [] [] [[]|]]; try destruct rt;
    vm_compute; reflexivity.
Qed.

Lemma coherent_run (es : list event) : coherent (run es init) = true.
Proof.
  induction es as [|e es IH] using rev_ind; [reflexivity|].
  rewrite AppSpec.run_app. cbn. now apply coherent_step.
Qed.

Ltac by_coherence st H :=
  destruct st as [m c r l ci pr ed stt ti rl rt rq];
  destruct m, r, l, ci, ed, stt, ti, rl; cbn in *;
  try discriminate H; try discriminate; try congruence; auto.

(** X11: in every state the component reaches with [isReady] set, the
    Monaco editor has been disposed (the cleanup of the editor effect runs
    when [isReady] changes), the loading screen is gone, neither the poll
    nor the settle timeout is pending, and a content change no longer
    reaches [code]. *)
Theorem ready_component_has_no_editor (es : list event) :
  isReady (run es init) = true ->
  editor (run es init) = Disposed /\
  isLoading (run es init) = false /\
  checkInterval (run es init) = false /\
  settleTimer (run es init) = false /\
  (forall content, step (Edit content) (run es init) = run es init).
Proof.
  intros Hready. pose proof (coherent_run es) as Hco.
  destruct (run es init) as [m c r l ci pr ed stt ti rl rt rq].
  cbn in Hready. subst r.
  destruct m, l, ci, ed, stt, ti, rl; try discriminate Hco; repeat split.
Qed.

Lemma ready_component_witness :
  editor interactive = Disposed /\
  isLoading interactive = false /\
  checkInterval interactive = false /\
  settleTimer interactive = false /\
  (forall content, step (Edit content) interactive = interactive).
Proof. exact (ready_component_has_no_editor [Tick loaded; Settle loaded] eq_refl). Defined.

Lemma isLoading_latched (e : event) (st : state) :
  isLoading st = false -> isLoading (step e st) = false.
Proof. intros H. destruct e; AppSpec.crunch st. Qed.

(** X12: while the component is mounted the polling interval is armed
    exactly as long as the loading screen shows; and [isLoading], once
    false, is never set again by any event. *)
Theorem poll_armed_while_loading :
  (forall es, mounted (run es init) = true ->
              checkInterval (run es init) = isLoading (run es init)) /\
  (forall st es, isLoading st = false -> isLoading (run es st) = false).
Proof.
  split.
  - intros es Hm. pose proof (coherent_run es) as Hco.
    destruct (run es init) as [m c r l ci pr ed stt ti rl rt rq].
    cbn in Hm. subst m.
    destruct r, l, ci, ed, stt, ti, rl; try discriminate Hco; reflexivity.
  - intros st es. revert st. induction es as [|e es IH]; intros st H; [exact H|].
    cbn. apply IH. now apply isLoading_latched.
Qed.

Lemma unmounted_stays_quiet (e : event) (st : state) :
  mounted st = false -> resizeListener st = false ->
  mounted (step e st) = false /\ resizeListener (step e st) = false /\
  editor (step e st) = editor st.
Proof.
  intros Hm Hr. destruct e; AppSpec.unfold_handlers; destruct st; cbn in *; subst;
    rewrite ?Bool.eqb_reflx; AppSpec.split_cases; cbn; repeat split; congruence.
Qed.

Lemma unmounted_run_quiet (es : list event) (st : state) :
  mounted st = false -> resizeListener st = false ->
  mounted (run es st) = false /\ resizeListener (run es st) = false /\
  editor (run es st) = editor st.
Proof.
  revert st. induction es as [|e es IH]; intros st Hm Hr; [auto|].
  destruct (unmounted_stays_quiet e st Hm Hr) as (Hm' & Hr' & He').
  cbn. fold (run es (step e st)).
  destruct (IH _ Hm' Hr') as (? & ? & ?). repeat split; congruence.
Qed.

(** X13: unmounting, from any state the component reaches, removes the
    resize listener and disposes the terminal the listener belonged to; the
    editor is not left live; and nothing that happens afterwards registers
    the listener again or revives the editor. *)
Theorem teardown_releases_widgets (es : list event) :
  resizeListener (step Unmount (run es init)) = false /\
  editor (step Unmount (run es init)) <> Live /\
  (forall ops, resizeListener (run es init) = true ->
               terminalInstance (run es init) = Some ops ->
               terminalInstance (step Unmount (run es init)) = Some (ops ++ [TDispose])%list) /\
  (forall later,
      resizeListener (run later (step Unmount (run es init))) = false /\
      editor (run later (step Unmount (run es init))) <> Live).
Proof.
  pose proof (coherent_run es) as Hco.
  assert (Hafter : mounted (step Unmount (run es init)) = false /\
                   resizeListener (step Unmount (run es init)) = false /\
                   editor (step Unmount (run es init)) <> Live).
  { destruct (run es init) as [m c r l ci pr ed stt ti rl rt rq].
    destruct m, r, l, ci, ed, stt, ti, rl; try discriminate Hco; cbn;
      repeat split; discriminate. }
  destruct Hafter as (Hm & Hr & He).
  split; [exact Hr|]. split; [exact He|]. split.
  - intros ops Hl Ht.
    destruct (run es init) as [m c r l ci pr ed stt ti rl rt rq].
    cbn in Hl, Ht. subst rl ti.
    destruct m, r, l, ci, ed, stt; try discriminate Hco; reflexivity.
  - intros later. destruct (unmounted_run_quiet later _ Hm Hr) as (_ & Hr' & He').
    split; [exact Hr' | now rewrite He'].
Qed.

Ltac simple_scrutinee b :=
  lazymatch b with
  | context [match _ with _ => _ end] => fail
  | _ => idtac
  end.

Ltac frame :=
  repeat (cbn;
          match goal with
          | |- context [if ?b then _ else _] => simple_scrutinee b; destruct b
          | |- context [match ?x with _ => _ end] => simple_scrutinee x; destruct x
          end);
  cbn; try reflexivity.

Lemma terminal_pollCallback (w : window) (st : state) :
  terminalInstance (pollCallback w st) = terminalInstance st.
Proof. unfold pollCallback, setIsLoading. frame. Qed.

Lemma terminal_monacoEffect (w : window) (st : state) :
  terminalInstance (monacoEffect w st) = terminalInstance st.
Proof. unfold monacoEffect. frame. Qed.

Lemma terminal_monacoCleanup (st : state) :
  terminalInstance (monacoCleanup st) = terminalInstance st.
Proof. unfold monacoCleanup. frame. Qed.

Lemma terminal_settleCallback (st : state) :
  terminalInstance (settleCallback st) = terminalInstance st.
Proof. unfold settleCallback, setIsReady. frame. Qed.

Lemma terminalEffect_once (w : window) (st : state) (ops : list term_op) :
  terminalInstance st = Some ops -> terminalEffect w st = st.
Proof.
  intros H. unfold terminalEffect, initTerminal, has_terminal. rewrite H.
  cbn. rewrite andb_false_r. now destruct (isLoading st).
Qed.

Lemma terminal_extended_by_step (e : event) (st : state) (ops : list term_op) :
  terminalInstance st = Some ops ->
  exists more, terminalInstance (step e st) = Some (ops ++ more)%list.
Proof.
  intros H.
  assert (Hsame : forall st', terminalInstance st' = Some ops ->
                    exists more, terminalInstance st' = Some (ops ++ more)%list)
    by (intros st' ->; exists []; now rewrite app_nil_r).
  destruct e as [w|w|content| | | |]; cbn [step].
  - destruct (checkInterval st); [|now apply Hsame].
    destruct (Bool.eqb _ _); apply Hsame.
    + now rewrite terminal_pollCallback.
    + rewrite (terminalEffect_once w _ ops);
        now rewrite terminal_monacoEffect, terminal_pollCallback.
  - destruct (settleTimer st); [|now apply Hsame].
    destruct (Bool.eqb _ _); apply Hsame.
    + now rewrite terminal_settleCallback.
    + now rewrite terminal_monacoEffect, terminal_monacoCleanup, terminal_settleCallback.
  - apply Hsame. destruct (editor st); try exact H. unfold setCode. now destruct (mounted st).
  - destruct (main_view st && negb (run_disabled st)); [|now apply Hsame].
    unfold handleRunCode. destruct (negb (isReady st)); [now apply Hsame|].
    unfold writeToTerminal. rewrite H. cbn. eexists. reflexivity.
  - destruct (runTimers st) as [|captured q]; [now apply Hsame|].
    unfold runCallback, writeToTerminal. cbn. rewrite H. cbn. eexists. reflexivity.
  - unfold handleResize. destruct (resizeListener st); [|now apply Hsame].
    rewrite H. cbn. eexists. reflexivity.
  - destruct (mounted st); [|now apply Hsame].
    unfold terminalCleanup, pollCleanup. cbn.
    destruct (resizeListener (monacoCleanup _)) eqn:Hr.
    + rewrite terminal_monacoCleanup. cbn. rewrite H. cbn. eexists. reflexivity.
    + apply Hsame. now rewrite terminal_monacoCleanup.
Qed.

Lemma listener_pollCallback (w : window) (st : state) :
  resizeListener (pollCallback w st) = resizeListener st.
Proof. unfold pollCallback, setIsLoading. frame. Qed.

Lemma listener_monacoEffect (w : window) (st : state) :
  resizeListener (monacoEffect w st) = resizeListener st.
Proof. unfold monacoEffect. frame. Qed.

Lemma listener_monacoCleanup (st : state) :
  resizeListener (monacoCleanup st) = resizeListener st.
Proof. unfold monacoCleanup. frame. Qed.

Lemma listener_settleCallback (st : state) :
  resizeListener (settleCallback st) = resizeListener st.
Proof. unfold settleCallback, setIsReady. frame. Qed.

Lemma write_ops_only_writes (text : string) (clear : bool) :
  ~ In TDispose (write_ops text clear) /\ ~ In TFit (write_ops text clear).
Proof.
  unfold write_ops.
  assert (Hlines : forall op lines,
             In op (map (fun line => TWrite (line ++ CRLF)) lines) -> exists d, op = TWrite d).
  { intros op lines. induction lines as [|l lines IH]; cbn; [tauto|].
    intros [<-|H]; [eexists; reflexivity | now apply IH]. }
  split; intros H; apply in_app_iff in H as [H|H];
    try (apply Hlines in H as (d & Hd); discriminate Hd);
    destruct clear; cbn in H; intuition discriminate.
Qed.

(** A terminal without resize listener is only written to. *)
Lemma unlistened_terminal_step (e : event) (st : state) (ops : list term_op) :
  terminalInstance st = Some ops -> resizeListener st = false ->
  exists more,
    terminalInstance (step e st) = Some (ops ++ more)%list /\
    resizeListener (step e st) = false /\
    ~ In TDispose more /\ ~ In TFit more.
Proof.
  intros H Hl.
  assert (Hsame : forall st', terminalInstance st' = Some ops -> resizeListener st' = false ->
                    exists more, terminalInstance st' = Some (ops ++ more)%list /\
                                 resizeListener st' = false /\
                                 ~ In TDispose more /\ ~ In TFit more).
  { intros st' H1 H2. exists []. rewrite app_nil_r. cbn. tauto. }
  assert (Hwrite : forall text clear st',
             terminalInstance st' = Some ops -> resizeListener st' = false ->
             exists more, terminalInstance (writeToTerminal text clear st')
                          = Some (ops ++ more)%list /\
                          resizeListener (writeToTerminal text clear st') = false /\
                          ~ In TDispose more /\ ~ In TFit more).
  { intros text clear st' H1 H2. unfold writeToTerminal. rewrite H1. cbn.
    exists (write_ops text clear). pose proof (write_ops_only_writes text clear). tauto. }
  destruct e as [w|w|content| | | |]; cbn [step].
  - destruct (checkInterval st); [|now apply Hsame].
    destruct (Bool.eqb _ _).
    + apply Hsame; [now rewrite terminal_pollCallback | now rewrite listener_pollCallback].
    + rewrite (terminalEffect_once w _ ops);
        [apply Hsame| ]; try now rewrite terminal_monacoEffect, terminal_pollCallback.
      now rewrite listener_monacoEffect, listener_pollCallback.
  - destruct (settleTimer st); [|now apply Hsame].
    destruct (Bool.eqb _ _); apply Hsame.
    + now rewrite terminal_settleCallback.
    + now rewrite listener_settleCallback.
    + now rewrite terminal_monacoEffect, terminal_monacoCleanup, terminal_settleCallback.
    + now rewrite listener_monacoEffect, listener_monacoCleanup, listener_settleCallback.
  - destruct (editor st); try now apply Hsame.
    unfold setCode. destruct (mounted st); now apply Hsame.
  - destruct (main_view st && negb (run_disabled st)); [|now apply Hsame].
    unfold handleRunCode. destruct (negb (isReady st)); [now apply Hsame|].
    destruct (Hwrite compiling_text true st H Hl) as (more & H1 & H2 & H3).
    exists more. cbn. tauto.
  - destruct (runTimers st) as [|captured q]; [now apply Hsame|].
    unfold runCallback. apply Hwrite; assumption.
  - unfold handleResize. rewrite Hl. now apply Hsame.
  - destruct (mounted st); [|now apply Hsame].
    unfold terminalCleanup, pollCleanup. cbn.
    rewrite listener_monacoCleanup. cbn. rewrite Hl.
    apply Hsame; cbn; [now rewrite terminal_monacoCleanup | now rewrite listener_monacoCleanup].
Qed.

(** What [initTerminal] leaves in an empty ref. *)
Lemma terminal_created_by_step (e : event) (st : state) :
  terminalInstance st = None -> resizeListener st = false ->
  (terminalInstance (step e st) = None /\ resizeListener (step e st) = false) \/
  terminalInstance (step e st) = Some terminal_opening \/
  (exists c, terminalInstance (step e st) = Some (calls_before c) /\
             resizeListener (step e st) = false).
Proof.
  destruct st as [m c r l ci pr ed stt ti rl rt rq]. cbn. intros -> ->.
  destruct e as [w|w|content| | | |];
    try destruct w as [wm wt wf ect tnt [call|]];
    AppSpec.unfold_handlers;
    unfold set_terminalInstance, set_resizeListener, libraries_available; frame;
    first [ left; split; reflexivity
          | right; left; reflexivity
          | right; right; eexists; split; reflexivity ].
Qed.

Lemma built_run (es : list event) (ops : list term_op) :
  terminalInstance (run es init) = Some ops -> built (run es init) ops.
Proof.
  revert ops. induction es as [|e es IH] using rev_ind; intros ops H; [discriminate H|].
  rewrite AppSpec.run_app in H |- *. cbn in H |- *.
  pose proof (coherent_run es) as Hco.
  destruct (terminalInstance (run es init)) as [before|] eqn:Hbefore.
  - destruct (IH before eq_refl) as [(rest & ->) | (c & rest & -> & Hd & Hf & Hl)].
    + destruct (terminal_extended_by_step e _ _ Hbefore) as (more & Hmore).
      rewrite Hmore in H. injection H as <-.
      left. exists (rest ++ more)%list. now rewrite app_assoc.
    + destruct (unlistened_terminal_step e _ _ Hbefore Hl) as (more & Hmore & Hl' & Hd' & Hf').
      rewrite Hmore in H. injection H as <-.
      right. exists c, (rest ++ more)%list. rewrite app_assoc.
      repeat split; try assumption; rewrite in_app_iff; tauto.
  - assert (Hl : resizeListener (run es init) = false).
    { destruct (run es init) as [m c r l ci pr ed stt ti rl rt rq].
      cbn in Hbefore. subst ti.
      destruct m, r, l, ci, ed, stt, rl; try discriminate Hco; reflexivity. }
    destruct (terminal_created_by_step e _ Hbefore Hl)
      as [[Hnone _] | [Hnew | (c & Hnew & Hl')]]; rewrite H in *.
    + discriminate Hnone.
    + injection Hnew as ->. left. exists []. now rewrite app_nil_r.
    + injection Hnew as ->. right. exists c, []. rewrite app_nil_r. cbn. tauto.
Qed.

(** X14: the component constructs at most one terminal: once the ref holds
    an instance, every later state holds the same instance with only
    further calls appended. The calls start with the whole setup of
    [initTerminal] (load the fit addon, open, fit, write the initialising
    line) or, when a call of the setup threw, with the calls made before
    it; such a half-built instance has no resize listener and is never
    fitted again or disposed. *)
Theorem terminal_constructed_once (es later : list event) (ops : list term_op) :
  terminalInstance (run es init) = Some ops ->
  (exists more, terminalInstance (run later (run es init)) = Some (ops ++ more)%list) /\
  ((exists rest, ops = (terminal_opening ++ rest)%list) \/
   (exists c rest, ops = (calls_before c ++ rest)%list /\
                   ~ In TDispose rest /\ ~ In TFit rest /\
                   resizeListener (run es init) = false)).
Proof.
  intros H. split; [|exact (built_run es ops H)].
  revert ops H. generalize (run es init) as st.
  induction later as [|e later IH]; intros st ops H.
  - exists []. now rewrite app_nil_r.
  - destruct (terminal_extended_by_step e st ops H) as (more & Hmore).
    destruct (IH _ _ Hmore) as (more' & Hmore').
    exists (more ++ more')%list. cbn. fold (run later (step e st)).
    now rewrite Hmore', app_assoc.
Qed.

Lemma terminal_constructed_witness :
  (exists more, terminalInstance (run [ClickRun; RunTimeout] (run [Tick loaded] init))
                = Some (terminal_opening ++ more)%list) /\
  ((exists rest, terminal_opening = (terminal_opening ++ rest)%list) \/
   (exists c rest, terminal_opening = (calls_before c ++ rest)%list /\
                   ~ In TDispose rest /\ ~ In TFit rest /\
                   resizeListener (run [Tick loaded] init) = false)).
Proof.
  exact (terminal_constructed_once [Tick loaded] [ClickRun; RunTimeout] terminal_opening eq_refl).
Defined.

(** A terminal whose [fitAddon.fit()] throws stays in the ref as it is:
    opened, with no listener, and not disposed by the unmount. *)
Example half_built_terminal_is_kept :
  terminalInstance (run [Tick fit_fails; Unmount] init) = Some [TLoadAddon; TOpen] /\
  resizeListener (run [Tick fit_fails] init) = false.
Proof. split; reflexivity. Qed.

Lemma no_editor_stays (e : event) (st : state) :
  isLoading st = false -> settleTimer st = false -> isReady st = false ->
  editor st = NoEditor ->
  isLoading (step e st) = false /\ settleTimer (step e st) = false /\
  isReady (step e st) = false /\ editor (step e st) = NoEditor.
Proof.
  destruct st as [m c r l ci pr ed stt ti rl rt rq]. cbn.
  intros -> -> -> ->.
  destruct e as [w|w|content| | | |]; try destruct w; AppSpec.unfold_handlers;
    unfold set_terminalInstance, set_resizeListener, libraries_available; frame;
    repeat split; reflexivity.
Qed.

(** X15: the editor is constructed at most once, with no second attempt:
    when [monaco.editor.create] throws at the tick that finds the libraries,
    the component never becomes interactive and never has an editor,
    whatever happens later. *)
Theorem failed_editor_never_ready (es later : list event) (w : window) :
  mounted (run es init) = true ->
  isLoading (run es init) = true ->
  libraries_available w = true ->
  editor_create_throws w = true ->
  isLoading (run later (step (Tick w) (run es init))) = false /\
  isReady (run later (step (Tick w) (run es init))) = false /\
  editor (run later (step (Tick w) (run es init))) = NoEditor.
Proof.
  intros Hm Hl Hw Hthrow. pose proof (coherent_run es) as Hco.
  assert (Hafter : isLoading (step (Tick w) (run es init)) = false /\
                   settleTimer (step (Tick w) (run es init)) = false /\
                   isReady (step (Tick w) (run es init)) = false /\
                   editor (step (Tick w) (run es init)) = NoEditor).
  { destruct (run es init) as [m c r l ci pr ed stt ti rl rt rq].
    cbn in Hm, Hl. subst m l.
    destruct r, ci, ed, stt, ti, rl; try discriminate Hco;
      unfold step, pollCallback; cbn; rewrite Hw; cbn;
      unfold terminalEffect, monacoEffect; rewrite AppSpec.initTerminal_closed;
      cbn; rewrite Hthrow;
      destruct (w_monaco w), (w_Terminal w), (w_FitAddon w), (terminal_new_throws w),
        (terminal_setup_throws w);
      cbn; auto. }
  clear Hco Hm Hl. revert Hafter. generalize (step (Tick w) (run es init)) as st.
  induction later as [|e later IH]; intros st (H1 & H2 & H3 & H4); [auto|].
  cbn. fold (run later (step e st)). apply IH. now apply no_editor_stays.
Qed.

Lemma failed_editor_witness :
  isLoading (run [ClickRun; Settle loaded] (step (Tick editor_fails) (run [] init))) = false /\
  isReady (run [ClickRun; Settle loaded] (step (Tick editor_fails) (run [] init))) = false /\
  editor (run [ClickRun; Settle loaded] (step (Tick editor_fails) (run [] init))) = NoEditor.
Proof.
  exact (failed_editor_never_ready [] [ClickRun; Settle loaded] editor_fails
           eq_refl eq_refl eq_refl eq_refl).
Defined.

(** X16: the run handler has no guard against a run in flight: in an
    interactive component every further click schedules one more timeout,
    each holding the buffer, and leaves the earlier ones pending. *)
Theorem every_click_schedules_a_run (st : state) (k : nat) :
  isReady st = true ->
  main_view st = true ->
  runTimers (run (repeat ClickRun k) st) = (runTimers st ++ repeat (code st) k)%list.
Proof.
  revert st. induction k as [|k IH]; intros st Hr Hv; [cbn; now rewrite app_nil_r|].
  cbn [repeat run fold_left]. fold (run (repeat ClickRun k) (step ClickRun st)).
  assert (Hstep : step ClickRun st = handleRunCode st)
    by (unfold step, run_disabled; now rewrite Hv, Hr).
  assert (Hkeep : isReady (handleRunCode st) = true /\ main_view (handleRunCode st) = true /\
                  code (handleRunCode st) = code st /\
                  runTimers (handleRunCode st) = (runTimers st ++ [code st])%list).
  { unfold handleRunCode, writeToTerminal, main_view in *. rewrite Hr. cbn.
    destruct (terminalInstance st); cbn; auto. }
  destruct Hkeep as (Hr' & Hv' & Hc' & Ht').
  rewrite Hstep, (IH _ Hr' Hv'), Hc', Ht', <- app_assoc. reflexivity.
Qed.

Lemma every_click_witness :
  runTimers (run (repeat ClickRun 2) interactive)
  = (runTimers interactive ++ repeat (code interactive) 2)%list.
Proof. exact (every_click_schedules_a_run interactive 2 eq_refl eq_refl). Defined.

Lemma no_terminal_stays (e : event) (st : state) :
  isLoading st = false -> terminalInstance st = None ->
  isLoading (step e st) = false /\ terminalInstance (step e st) = None.
Proof.
  destruct st as [m c r l ci pr ed stt ti rl rt rq]. cbn.
  intros -> ->.
  destruct e as [w|w|content| | | |]; try destruct w; AppSpec.unfold_handlers;
    unfold set_terminalInstance, set_resizeListener, libraries_available; frame;
    repeat split; reflexivity.
Qed.

(** X18: the terminal is constructed at most once, with no second attempt:
    when [new Terminal] throws at the tick that finds the libraries, the
    component never has a terminal, so nothing is ever written, whatever
    happens later; the editor is initialised all the same, and the settle
    timeout then makes the component interactive. *)
Theorem failed_terminal_stays_absent (es later : list event) (w : window) :
  mounted (run es init) = true ->
  isLoading (run es init) = true ->
  libraries_available w = true ->
  terminal_new_throws w = true ->
  terminalInstance (run later (step (Tick w) (run es init))) = None /\
  (editor_create_throws w = false ->
   forall w', isReady (step (Settle w') (step (Tick w) (run es init))) = true).
Proof.
  intros Hm Hl Hw Hthrow. pose proof (coherent_run es) as Hco.
  assert (Hlibs := Hw). unfold libraries_available in Hlibs.
  apply andb_true_iff in Hlibs as [Hlibs HF]. apply andb_true_iff in Hlibs as [HM HT].
  destruct (run es init) as [m c r l ci pr ed stt ti rl rt rq].
  cbn in Hm, Hl. subst m l.
  destruct r, ci, ed, stt, ti, rl; try discriminate Hco. clear Hco.
  assert (Htick : step (Tick w)
                    {| mounted := true; code := c; isReady := false; isLoading := true;
                       checkInterval := true; pollRuns := pr; editor := NoEditor;
                       settleTimer := false; terminalInstance := None;
                       resizeListener := false; runTimers := rt; requests := rq |}
                  = {| mounted := true; code := c; isReady := false; isLoading := false;
                       checkInterval := false; pollRuns := S pr;
                       editor := if editor_create_throws w then NoEditor else Live;
                       settleTimer := negb (editor_create_throws w); terminalInstance := None;
                       resizeListener := false; runTimers := rt; requests := rq |}).
  { unfold step, pollCallback. cbn. rewrite Hw. cbn.
    unfold terminalEffect, monacoEffect, initTerminal. cbn.
    rewrite HM, HT, HF, Hthrow. cbn. now destruct (editor_create_throws w). }
  rewrite Htick. split.
  - match goal with |- terminalInstance (run later ?s) = None =>
      assert (Hstart : isLoading s = false /\ terminalInstance s = None) by (now split);
      revert Hstart; generalize s as st end.
    induction later as [|e later IH]; intros st [H1 H2]; [exact H2|].
    cbn. fold (run later (step e st)). apply IH. now apply no_terminal_stays.
  - intros -> w'. reflexivity.
Qed.

Lemma failed_terminal_witness :
  terminalInstance (run [Settle loaded; ClickRun; RunTimeout]
                      (step (Tick terminal_fails) (run [] init))) = None /\
  (editor_create_throws terminal_fails = false ->
   forall w', isReady (step (Settle w') (step (Tick terminal_fails) (run [] init))) = true).
Proof.
  exact (failed_terminal_stays_absent [] [Settle loaded; ClickRun; RunTimeout] terminal_fails
           eq_refl eq_refl eq_refl eq_refl).
Defined.


End AppExtra.

(* ===================================================================== *)
(** ** Properties of the style sheet injection *)
(* ===================================================================== *)

Module PageExtra.
Import Page.

Lemma injected_has_style (d : document) :
  hasElementById "xterm-custom-style"
    {| head := head d ++ [xterm_style]; others := others d |} = true.
Proof.
  unfold hasElementById. cbn [head others].
  rewrite !existsb_app. cbn. now rewrite orb_true_r.
Qed.

(** X17: injecting the style sheet is idempotent: after one run the
    document holds an element with the style's id, a second run changes
    nothing, at most one element is added, at the end of [head], and every
    element already there is left as it was; without a document nothing
    happens. *)
Theorem style_injected_at_most_once (doc : option document) :
  injectXtermCss (injectXtermCss doc) = injectXtermCss doc /\
  (doc = None -> injectXtermCss doc = None) /\
  (forall d, doc = Some d ->
     exists d' added,
       injectXtermCss doc = Some d' /\
       hasElementById "xterm-custom-style" d' = true /\
       head d' = (head d ++ added)%list /\ others d' = others d /\
       (added = [] \/ added = [xterm_style]) /\
       (added = [] <-> hasElementById "xterm-custom-style" d = true)).
Proof.
  destruct doc as [d|]; cbn [injectXtermCss].
  - destruct (hasElementById "xterm-custom-style" d) eqn:Hhas; cbn [negb].
    + split; [cbn; now rewrite Hhas|]. split; [discriminate|].
      intros ? [= <-]. exists d, []. rewrite app_nil_r. repeat split; auto.
    + split; [cbn [injectXtermCss]; now rewrite injected_has_style|].
      split; [discriminate|].
      intros ? [= <-]. eexists _, [xterm_style].
      split; [reflexivity|]. split; [apply injected_has_style|].
      split; [reflexivity|]. split; [reflexivity|]. split; [now right|].
      split; [discriminate | congruence].
  - repeat split. intros d H. discriminate H.
Qed.

End PageExtra.
